(** * nginx-buildpack: version resolution, configuration rendering and
      configuration validation

    A shallow embedding of [src/nginx/supply/supply.go] and
    [src/nginx/varify/varify.go], and the properties of the written
    specification that can be settled on it.

    Conventions.
    - A Go [string] is a [string] (a sequence of bytes).
    - A Go [map[string]T] is a [gmap string T]; the two-result index
      expression [v, ok := m[k]] is [m !! k], the one-result form [m[k]]
      is [default zero (m !! k)].
    - A Go function returning [(T, error)] returns a pair [T * option error]
      here, the zero value of [T] standing beside [Some err] exactly where the
      source writes it.
    - Interfaces ([Manifest], [Stager], [Command]) are records of functions. *)

From stdpp Require Import gmap strings list sorting.
From Stdlib Require Import Ascii String.

Local Open Scope string_scope.

(** ** Errors *)

(** A Go [error] value.  [ErrorString msg] is what [errors.New msg] and a
    [fmt.Errorf] without verbs build, and what the file system and spawned
    processes hand back; [Errorf format cause] is
    [fmt.Errorf(format, cause.Error())] for a [format] with one [%s];
    [NoMatchingVersion] is the failure of [libbuildpack.FindMatchingVersion]
    (section 7 of the specification); [ParseFailure] and [ExecFailure] are
    the errors of the template package, whose wording is not modelled. *)
Inductive error : Type :=
| ErrorString (msg : string)
| Errorf (format : string) (cause : error)
| NoMatchingVersion (constraint : string) (versions : list string)
| ParseFailure
| ExecFailure.

(** ** Strings and paths *)

(** The pieces of [s] between occurrences of [sep] ([strings.Split] with a
    one-byte separator); [cur] is the piece being read. *)
Fixpoint split_from (sep : ascii) (cur : string) (s : string) : list string :=
  match s with
  | EmptyString => [cur]
  | String c rest =>
      if Ascii.eqb c sep then cur :: split_from sep "" rest
      else split_from sep (cur +:+ String c EmptyString) rest
  end.

Definition split_on (sep : string) (s : string) : list string :=
  match sep with
  | String c EmptyString => split_from c "" s
  | _ => [s]
  end.

(** [needle] occurs in [hay] as a substring ([strings.Contains]). *)
Fixpoint contains (needle hay : string) : bool :=
  String.prefix needle hay ||
  match hay with
  | EmptyString => false
  | String _ rest => contains needle rest
  end.

(** The element walk of [filepath.Clean]: empty and [.] elements are dropped,
    a [..] element removes the element before it when there is one to remove,
    is dropped at the root, and is kept otherwise.  [stack] holds the elements
    kept so far, last one first. *)
Fixpoint clean_elements (rooted : bool) (stack elems : list string) : list string :=
  match elems with
  | [] => rev stack
  | e :: rest =>
      if decide (e = "" \/ e = ".") then clean_elements rooted stack rest
      else if decide (e = "..") then
        match stack with
        | top :: below =>
            if decide (top = "..") then clean_elements rooted (e :: stack) rest
            else clean_elements rooted below rest
        | [] =>
            if rooted then clean_elements rooted [] rest
            else clean_elements rooted [e] rest
        end
      else clean_elements rooted (e :: stack) rest
  end.

(** [filepath.Clean] on a host whose separator is [/]. *)
Definition Clean (path : string) : string :=
  let rooted := String.prefix "/" path in
  let out := String.concat "/" (clean_elements rooted [] (split_on "/" path)) in
  if rooted then "/" +:+ out
  else if decide (out = "") then "." else out.

(** [filepath.Join]: leading empty elements are skipped, the rest is joined
    with [/] and cleaned; with nothing but empty elements the result is the
    empty string. *)
Fixpoint Join (elem : list string) : string :=
  match elem with
  | [] => ""
  | e :: rest =>
      if decide (e = "") then Join rest else Clean (String.concat "/" elem)
  end.

(** ** The file system and the world of a staging run *)

(** What a path names.  [Denied] is an entry that can be neither examined nor
    opened (a permission failure); [writable] is the owner's write bit. *)
Inductive node : Type :=
| RegularFile (content : string) (writable : bool)
| Directory
| Denied.

(** [path] is [root] or lies below it. *)
Definition within (root path : string) : Prop :=
  path = root \/ String.prefix (root +:+ "/") path = true.

#[global] Instance within_dec root path : Decision (within root path).
Proof. unfold within. apply _. Defined.

(** [exec.Cmd], the fields the source sets. *)
Record Cmd : Type := mkCmd {
  Path : string;
  Args : list string;
  Dir : string;
  Env : list string
}.

(** [exec.Command(name, arg...)]; [name] contains a separator wherever the
    source calls it, so no search of [PATH] takes place. *)
Definition exec_Command (name : string) (arg : list string) : Cmd :=
  mkCmd name (name :: arg) "" [].

(** What a staging run does to its surroundings, in order of occurrence. *)
Inductive event : Type :=
| EvLogError (msg : string)
| EvStat (path : string)
| EvReadFile (path : string)
| EvTempDir (dir pattern : string)
| EvCopyDirectory (src dst : string)
| EvRun (cmd : Cmd)
| EvExecute (dir program : string) (args : list string)
| EvStderr (text : string)
| EvRemoveAll (path : string)
| EvCreate (path : string)
| EvWrite (path data : string).

Record World : Type := mkWorld {
  fs : gmap string node;
  environ : list string;
  trace : list event
}.

(** A computation that reads and changes the world. *)
Definition Action (A : Type) : Type := World -> A * World.

#[global] Instance Action_ret : MRet Action := fun A x w => (x, w).
#[global] Instance Action_bind : MBind Action :=
  fun A B f m w => let '(x, w') := m w in f x w'.

Definition emit (e : event) : Action unit :=
  fun w => (tt, mkWorld (fs w) (environ w) (trace w ++ [e])).

Definition getFS : Action (gmap string node) := fun w => (fs w, w).

Definition putFS (files : gmap string node) : Action unit :=
  fun w => (tt, mkWorld files (environ w) (trace w)).

(** [defer cleanup] at the head of [body]: the cleanup runs when the body has
    returned, whatever it returned, and its own result is dropped. *)
Definition defer {A B : Type} (cleanup : Action B) (body : Action A) : Action A :=
  fun w => let '(r, w1) := body w in let '(_, w2) := cleanup w1 in (r, w2).

(** ** Collaborators *)

(** The [Command] interface: [Run] and [Execute] start a process and wait
    for it.  Such a process may change any file; [Execute] also hands back
    what the process wrote to the error stream it was given. *)
Record Command : Type := mkCommand {
  Execute : string -> string -> list string -> gmap string node ->
            option error * string * gmap string node;
  Run : Cmd -> gmap string node -> option error * gmap string node
}.

(** The parts of the host that the source reaches through library calls and
    that are not determined by the file system: the suffix [ioutil.TempDir]
    draws for a new directory (or the error it gives up with), and what
    [libbuildpack.CopyDirectory] makes of a tree. *)
Record Host : Type := mkHost {
  tempSuffix : gmap string node -> string + error;
  copyDirectory : string -> string -> gmap string node ->
                  option error * gmap string node
}.

(** [libbuildpack.Dependency]; [Dependency{}] is [zeroDependency]. *)
Record Dependency : Type := mkDependency {
  Name : string;
  Version : string
}.

Definition zeroDependency : Dependency := mkDependency "" "".

(** The [Manifest] interface, restricted to the methods the functions below
    call. *)
Record Manifest : Type := mkManifest {
  AllDependencyVersions : string -> list string;
  RootDir : string
}.

(** The [Stager] interface, restricted likewise. *)
Record Stager : Type := mkStager {
  BuildDir : string;
  DepDir : string;
  DepsIdx : string
}.

(** [Supplier], without its logger (whose calls are [EvLogError] events) and
    its installer, and with the host it runs on. *)
Record Supplier : Type := mkSupplier {
  supplierStager : Stager;
  supplierManifest : Manifest;
  supplierCommand : Command;
  supplierHost : Host;
  VersionLines : gmap string string
}.

(** * Part I: supply.go, version resolution *)

(** The constraint language of the version library: which concrete versions a
    constraint string accepts, and how two versions compare.  The functions of
    this file are written against the interface; [Wildcard] below is one
    instance. *)
Class ConstraintLanguage : Type := {
  satisfies : string -> string -> bool;
  version_lt : string -> string -> bool
}.

Section Resolver.
Context `{ConstraintLanguage}.

(** The greatest element of a list of versions for [version_lt]; of two
    versions that compare equal the earlier one is kept. *)
Fixpoint highest (versions : list string) : option string :=
  match versions with
  | [] => None
  | v :: rest =>
      match highest rest with
      | None => Some v
      | Some w => if version_lt v w then Some w else Some v
      end
  end.

(** Modelled from the spec: [libbuildpack.FindMatchingVersion], which is
    called by [findMatchingVersion] and [isStableLine] but whose source is not
    part of the two files.  Section 4.1, step 3: "find the highest version in
    availableVersions satisfying it ... If no version in the set satisfies the
    constraint, fail with ResolutionError.NoMatchingVersion". *)
Definition FindMatchingVersion (constraint : string) (versions : list string)
  : string * option error :=
  match highest (filter (fun v => satisfies constraint v = true) versions) with
  | Some v => (v, None)
  | None => ("", Some (NoMatchingVersion constraint versions))
  end.

Definition noMainlineMessage : string :=
  "Could not find mainline version line in buildpack manifest to default to".

(** Lines 233 to 240 of [findMatchingVersion]: the constraint the first
    statement has settled on is matched against the versions of the
    manifest.  The line table is not among the arguments. *)
Definition matchAvailable (m : Manifest) (depName version : string)
  : Dependency * option error :=
  let versions := AllDependencyVersions m depName in
  match FindMatchingVersion version versions with
  | (_, Some err) => (zeroDependency, Some err)
  | (ver, None) => (mkDependency depName ver, None)
  end.

(** [func (s *Supplier) findMatchingVersion(depName string, version string)
    (libbuildpack.Dependency, error)] *)
Definition findMatchingVersion (s : Supplier) (depName version : string)
  : Dependency * option error :=
  if decide (version = "") then
    match VersionLines s !! "mainline" with
    | Some val => matchAvailable (supplierManifest s) depName val
    | None => (zeroDependency, Some (ErrorString noMainlineMessage))
    end
  else
    match VersionLines s !! version with
    | Some val => matchAvailable (supplierManifest s) depName val
    | None => matchAvailable (supplierManifest s) depName version
    end.

(** [func (s *Supplier) isStableLine(version string) bool] *)
Definition isStableLine (s : Supplier) (version : string) : bool :=
  let stableLine := default "" (VersionLines s !! "stable") in
  match FindMatchingVersion stableLine [version] with
  | (_, None) => true
  | (_, Some _) => false
  end.

End Resolver.

(** ** An instance of the constraint language: dotted numeric versions with
    wildcards

    Modelled from the spec: the matching rules of the version library, which
    the two source files only call.  Section 4.1: "numeric major.minor.patch
    comparison with wildcard/range support, e.g. 1.21.* matches any 1.21.x".
    The instance covers constraints of three dot-separated components, each a
    decimal number or a wildcard; the theorems of this file hold for every
    instance of [ConstraintLanguage], and this one serves the worked
    examples. *)
Module Wildcard.

Definition digit (c : ascii) : option N :=
  let n := N_of_ascii c in
  if (48 <=? n)%N && (n <=? 57)%N then Some (n - 48)%N else None.

Fixpoint number_from (acc : N) (s : string) : option N :=
  match s with
  | EmptyString => Some acc
  | String c rest =>
      match digit c with
      | Some d => number_from (acc * 10 + d)%N rest
      | None => None
      end
  end.

(** A non-empty string of decimal digits. *)
Definition number (s : string) : option N :=
  match s with
  | EmptyString => None
  | _ => number_from 0%N s
  end.

Definition parse_version (v : string) : option (N * N * N) :=
  match split_on "." v with
  | [a; b; c] =>
      match number a, number b, number c with
      | Some x, Some y, Some z => Some (x, y, z)
      | _, _, _ => None
      end
  | _ => None
  end.

(** One component of a constraint against one component of a version. *)
Definition component_matches (pat : string) (n : N) : bool :=
  if decide (pat = "*" \/ pat = "x" \/ pat = "X") then true
  else match number pat with
       | Some m => (m =? n)%N
       | None => false
       end.

Definition wildcard_satisfies (constraint version : string) : bool :=
  match split_on "." constraint, parse_version version with
  | [a; b; c], Some (x, y, z) =>
      component_matches a x && component_matches b y && component_matches c z
  | _, _ => false
  end.

Definition triple_lt (p q : N * N * N) : bool :=
  let '(a, b, c) := p in
  let '(x, y, z) := q in
  (a <? x)%N || ((a =? x)%N && ((b <? y)%N || ((b =? y)%N && (c <? z)%N))).

Definition numeric_lt (v w : string) : bool :=
  match parse_version v, parse_version w with
  | Some p, Some q => triple_lt p q
  | _, _ => false
  end.

#[export] Instance language : ConstraintLanguage :=
  {| satisfies := wildcard_satisfies; version_lt := numeric_lt |}.

End Wildcard.

(** * Part II: supply.go, the configuration validator *)

(** ** Library calls on the world *)

(** [libbuildpack.FileExists]: [os.Stat], with "does not exist" turned into
    [(false, nil)] and any other failure handed on. *)
Definition FileExists (file : string) : Action (bool * option error) :=
  _ ← emit (EvStat file);
  files ← getFS;
  match files !! file with
  | None => mret (false, None)
  | Some Denied => mret (false, Some (ErrorString ("stat " +:+ file +:+ ": permission denied")))
  | Some _ => mret (true, None)
  end.

(** [ioutil.ReadFile] *)
Definition ReadFile (filename : string) : Action (string * option error) :=
  _ ← emit (EvReadFile filename);
  files ← getFS;
  match files !! filename with
  | Some (RegularFile content _) => mret (content, None)
  | Some Directory => mret ("", Some (ErrorString ("read " +:+ filename +:+ ": is a directory")))
  | Some Denied => mret ("", Some (ErrorString ("open " +:+ filename +:+ ": permission denied")))
  | None => mret ("", Some (ErrorString ("open " +:+ filename +:+ ": no such file or directory")))
  end.

(** [regexp.Match("{{port}}", conf)].  In the expression syntax of [regexp] a
    brace that does not open a repetition count stands for itself, so the
    pattern compiles (the error result is always [nil]) and matches exactly
    the texts that contain the eight bytes [{{port}}]. *)
Definition matchPort (conf : string) : bool * option error :=
  (contains "{{port}}" conf, None).

(** [ioutil.TempDir(dir, prefix)]: a new directory [dir/prefix<suffix>], the
    suffix drawn by the host; an error when the host gives up or the name is
    taken. *)
Definition TempDir (h : Host) (dir pattern : string) : Action (string * option error) :=
  _ ← emit (EvTempDir dir pattern);
  files ← getFS;
  match tempSuffix h files with
  | inr err => mret ("", Some err)
  | inl suffix =>
      let name := Join [dir; pattern +:+ suffix] in
      match files !! name with
      | Some _ => mret ("", Some (ErrorString ("mkdir " +:+ name +:+ ": file exists")))
      | None => _ ← putFS (<[name := Directory]> files); mret (name, None)
      end
  end.

(** [os.RemoveAll]: the path and everything below it is gone afterwards.
    The removal is taken to succeed; the only call in the source is
    deferred, and a deferred call's results are dropped. *)
Definition RemoveAll (path : string) : Action (option error) :=
  _ ← emit (EvRemoveAll path);
  files ← getFS;
  _ ← putFS (filter (fun entry => ¬ within path entry.1) files);
  mret None.

(** [libbuildpack.CopyDirectory] *)
Definition CopyDirectory (h : Host) (src dst : string) : Action (option error) :=
  _ ← emit (EvCopyDirectory src dst);
  files ← getFS;
  let '(err, files') := copyDirectory h src dst files in
  _ ← putFS files';
  mret err.

(** [s.Command.Run(cmd)] *)
Definition commandRun (c : Command) (cmd : Cmd) : Action (option error) :=
  _ ← emit (EvRun cmd);
  files ← getFS;
  let '(err, files') := Run c cmd files in
  _ ← putFS files';
  mret err.

(** [s.Command.Execute(dir, os.Stdout, &stderr, program, args...)]; the
    second component of the result is the content of the [stderr] buffer
    after the call. *)
Definition commandExecute (c : Command) (dir program : string) (args : list string)
  : Action (option error * string) :=
  _ ← emit (EvExecute dir program args);
  files ← getFS;
  let '(err, stderr, files') := Execute c dir program args files in
  _ ← putFS files';
  mret (err, stderr).

(** [os.Environ()] *)
Definition Environ : Action (list string) := fun w => (environ w, w).

(** ** The three stages *)

Section Validator.
Variable s : Supplier.

(** [func (s *Supplier) validateNginxConfExists() error] *)
Definition validateNginxConfExists : Action (option error) :=
  '(exists_, err) ← FileExists (Join [BuildDir (supplierStager s); "nginx.conf"]);
  match err with
  | Some e => mret (Some e)
  | None =>
      if negb exists_ then
        _ ← emit (EvLogError "nginx.conf file must be present at the app root");
        mret (Some (ErrorString "no nginx"))
      else mret None
  end.

(** [func (s *Supplier) validateNginxConfHasPort() error] *)
Definition validateNginxConfHasPort : Action (option error) :=
  '(conf, err) ← ReadFile (Join [BuildDir (supplierStager s); "nginx.conf"]);
  match err with
  | Some e => mret (Some e)
  | None =>
      let '(portFound, err) := matchPort conf in
      match err with
      | Some e => mret (Some e)
      | None =>
          if negb portFound then
            _ ← emit (EvLogError "nginx.conf file must be configured to respect the value of `{{port}}`");
            mret (Some (ErrorString "no {{port}} in nginx.conf"))
          else mret None
      end
  end.

(** [func (s *Supplier) validateNginxConfSyntax() error] *)
Definition validateNginxConfSyntax : Action (option error) :=
  '(tmpConfDir, err) ← TempDir (supplierHost s) "/tmp" "conf";
  match err with
  | Some e => mret (Some (Errorf "Error creating temp nginx conf dir: %s" e))
  | None =>
      defer (RemoveAll tmpConfDir) (
        err ← CopyDirectory (supplierHost s) (BuildDir (supplierStager s)) tmpConfDir;
        match err with
        | Some e => mret (Some (Errorf "Error copying nginx.conf: %s" e))
        | None =>
            let nginxConfPath := Join [tmpConfDir; "nginx.conf"] in
            let cmd := exec_Command (Join [DepDir (supplierStager s); "bin"; "varify"]) [nginxConfPath] in
            env ← Environ;
            let cmd :=
              mkCmd (Path cmd) (Args cmd) tmpConfDir
                (env ++ ["PORT=8080";
                         "NGINX_MODULES=" +:+
                         Join [DepDir (supplierStager s); "nginx"; "nginx"; "modules"]]) in
            err ← commandRun (supplierCommand s) cmd;
            match err with
            | Some e => mret (Some e)
            | None =>
                let nginxExecDir := Join [DepDir (supplierStager s); "nginx"; "nginx"; "sbin"] in
                '(err, nginxErr) ← commandExecute (supplierCommand s) tmpConfDir
                                     (Join [nginxExecDir; "nginx"])
                                     ["-t"; "-c"; nginxConfPath; "-p"; tmpConfDir];
                match err with
                | Some e =>
                    _ ← emit (EvStderr nginxErr);
                    mret (Some (Errorf "nginx.conf contains syntax errors: %s" e))
                | None => mret None
                end
            end
        end)
  end.

(** [func (s *Supplier) validateNginxConf() error] *)
Definition validateNginxConf : Action (option error) :=
  err ← validateNginxConfExists;
  match err with
  | Some e => mret (Some e)
  | None =>
      err ← validateNginxConfHasPort;
      match err with
      | Some e => mret (Some e)
      | None => validateNginxConfSyntax
      end
  end.

End Validator.

(** * Part III: varify.go, the rendering tool

    What this file does is decided in large part by two packages of the Go
    standard library, [encoding/json] and [html/template].  Both are
    modelled below from their documented behaviour: the first in full as far
    as [getServiceProperty] can observe it, the second for the templates
    described at its definition. *)

(** ** [encoding/json]: what [json.Unmarshal] stores in [services] *)

(** A value held in an [interface{}] by the decoder.  [Number] stands for
    what a number literal is converted to (a [float64], or nothing when the
    literal is out of its range); the source asserts values to be strings or
    maps only, and the assertions fail on either. *)
#[warnings="-register-all"]
Inductive any : Type :=
| Nil
| Bool (b : bool)
| Number (literal : string)
| Str (s : string)
| Slice (elems : list any)
| Map (m : gmap string any).

(** A JSON text as read: members of an object in the order written,
    duplicates kept; strings with their escapes resolved. *)
#[warnings="-register-all"]
Inductive json : Type :=
| JNull
| JBool (b : bool)
| JNumber (literal : string)
| JString (s : string)
| JArray (elems : list json)
| JObject (members : list (string * json)).

Definition code (c : ascii) : N := N_of_ascii c.

Definition between (lo hi : N) (c : ascii) : bool :=
  (lo <=? code c)%N && (code c <=? hi)%N.

Definition byte_is (c : ascii) (n : N) : bool := (code c =? n)%N.

(** [isSpace] of the scanner: space, tab, carriage return, line feed. *)
Definition isSpace (c : ascii) : bool := byte_is c 32 || byte_is c 9 || byte_is c 13 || byte_is c 10.

Definition isDigit (c : ascii) : bool := between 48 57 c.

Definition isHex (c : ascii) : bool :=
  isDigit c || between 97 102 c || between 65 70 c.

Definition hexval (c : ascii) : N :=
  if isDigit c then (code c - 48)%N
  else if between 97 102 c then (code c - 87)%N
  else if between 65 70 c then (code c - 55)%N
  else 0%N.

Definition rune4 (a b c d : ascii) : N :=
  (((hexval a * 16 + hexval b) * 16 + hexval c) * 16 + hexval d)%N.

Definition one_byte (n : N) : string := String (ascii_of_N n) EmptyString.

(** [utf8.EncodeRune]; a surrogate half or a value past U+10FFFF is written
    as U+FFFD. *)
Definition encodeRune (r : N) : string :=
  let r := if ((55296 <=? r) && (r <=? 57343) || (1114111 <? r))%N then 65533%N else r in
  if (r <? 128)%N then one_byte r
  else if (r <? 2048)%N then
    one_byte (192 + r / 64) +:+ one_byte (128 + r mod 64)
  else if (r <? 65536)%N then
    one_byte (224 + r / 4096) +:+ one_byte (128 + (r / 64) mod 64) +:+ one_byte (128 + r mod 64)
  else
    one_byte (240 + r / 262144) +:+ one_byte (128 + (r / 4096) mod 64) +:+
    one_byte (128 + (r / 64) mod 64) +:+ one_byte (128 + r mod 64).

Definition continuation (c : ascii) : bool := between 128 191 c.

(** The byte sequences [utf8.DecodeRune] accepts, by length. *)
Definition valid2 (b0 b1 : ascii) : bool := between 194 223 b0 && continuation b1.

Definition valid3 (b0 b1 b2 : ascii) : bool :=
  ((byte_is b0 224 && between 160 191 b1) ||
   ((between 225 236 b0 || between 238 239 b0) && continuation b1) ||
   (byte_is b0 237 && between 128 159 b1)) && continuation b2.

Definition valid4 (b0 b1 b2 b3 : ascii) : bool :=
  ((byte_is b0 240 && between 144 191 b1) ||
   (between 241 243 b0 && continuation b1) ||
   (byte_is b0 244 && between 128 143 b1)) && continuation b2 && continuation b3.

(** The byte an escape letter stands for. *)
Definition escaped (e : ascii) : ascii :=
  if byte_is e 98 then ascii_of_N 8
  else if byte_is e 102 then ascii_of_N 12
  else if byte_is e 110 then ascii_of_N 10
  else if byte_is e 114 then ascii_of_N 13
  else if byte_is e 116 then ascii_of_N 9
  else e.

Definition replacement : string := encodeRune 65533.

(** [unquote] of the decoder, on the bytes between the quotes of a string
    the scanner has accepted: escapes are resolved, a [\u] surrogate pair
    becomes one rune, a lone half becomes U+FFFD, and every byte that does
    not start a well-formed UTF-8 sequence becomes U+FFFD. *)
Fixpoint unquote (s : string) : string :=
  match s with
  | EmptyString => EmptyString
  | String c rest =>
      if byte_is c 92 then
        match rest with
        | EmptyString => EmptyString
        | String e rest1 =>
            if byte_is e 117 then
              match rest1 with
              | String h1 (String h2 (String h3 (String h4 rest2))) =>
                  let rr := rune4 h1 h2 h3 h4 in
                  if ((55296 <=? rr) && (rr <=? 57343))%N then
                    match rest2 with
                    | String s1 (String s2 (String g1 (String g2 (String g3 (String g4 rest3))))) =>
                        let rr1 := rune4 g1 g2 g3 g4 in
                        if byte_is s1 92 && byte_is s2 117 && isHex g1 && isHex g2 && isHex g3 && isHex g4
                           && (rr <=? 56319)%N && (56320 <=? rr1)%N && (rr1 <=? 57343)%N
                        then encodeRune ((rr - 55296) * 1024 + (rr1 - 56320) + 65536)%N
                               +:+ unquote rest3
                        else replacement +:+ unquote rest2
                    | _ => replacement +:+ unquote rest2
                    end
                  else encodeRune rr +:+ unquote rest2
              | _ => EmptyString
              end
            else String (escaped e) (unquote rest1)
        end
      else if (code c <? 128)%N then String c (unquote rest)
      else
        match rest with
        | EmptyString => replacement
        | String b1 rest1 =>
            if valid2 c b1 then String c (String b1 (unquote rest1))
            else
              match rest1 with
              | EmptyString => replacement +:+ unquote rest
              | String b2 rest2 =>
                  if valid3 c b1 b2 then String c (String b1 (String b2 (unquote rest2)))
                  else
                    match rest2 with
                    | EmptyString => replacement +:+ unquote rest
                    | String b3 rest3 =>
                        if valid4 c b1 b2 b3
                        then String c (String b1 (String b2 (String b3 (unquote rest3))))
                        else replacement +:+ unquote rest
                    end
              end
        end
  end.

(** *** The scanner

    A transcription of the scanner's byte-at-a-time state machine.  Where the
    scanner keeps a stack of "in an array / at an object key / at an object
    value" marks, the stack here also carries what has been read of each open
    array and object, so that one pass yields the value. *)

Inductive numberState : Type :=
| NumNeg      (* after the sign *)
| Num0        (* after a leading 0 *)
| Num1        (* in the integer digits *)
| NumDot      (* after the point *)
| NumDot0     (* in the fraction digits *)
| NumE        (* after e or E *)
| NumESign    (* after the sign of the exponent *)
| NumE0.      (* in the exponent digits *)

Inductive lexState : Type :=
| BeginValue
| BeginValueOrEmpty
| BeginString
| BeginStringOrEmpty
| EndValue
| InString (raw : string)
| InStringEsc (raw : string)
| InStringEscU (raw : string) (todo : nat)
| InNumber (st : numberState) (literal : string)
| InLiteral (todo : string) (v : json)
| EndTop (v : json).

(** An open array with its elements so far (last first), or an open object
    with its members so far (last first) and the position in the current
    member. *)
Inductive frame : Type :=
| FArray (elems : list json)
| FKey (members : list (string * json))
| FColon (members : list (string * json)) (key : string)
| FValue (members : list (string * json)) (key : string)
| FNext (members : list (string * json)).

Definition scanState : Type := list frame * lexState.

Definition snoc (s : string) (c : ascii) : string := s +:+ String c EmptyString.

(** A value is complete: it is the top-level value, the next element, a key
    or a member's value. *)
Definition finish (v : json) (stack : list frame) : option scanState :=
  match stack with
  | [] => Some ([], EndTop v)
  | FArray elems :: below => Some (FArray (v :: elems) :: below, EndValue)
  | FKey members :: below =>
      match v with
      | JString key => Some (FColon members key :: below, EndValue)
      | _ => None
      end
  | FValue members key :: below => Some (FNext ((key, v) :: members) :: below, EndValue)
  | _ => None
  end.

(** [stateEndValue] *)
Definition endValue (stack : list frame) (c : ascii) : option scanState :=
  if isSpace c then Some (stack, EndValue)
  else
    match stack with
    | FArray elems :: below =>
        if byte_is c 44 then Some (stack, BeginValue)
        else if byte_is c 93 then finish (JArray (rev elems)) below
        else None
    | FColon members key :: below =>
        if byte_is c 58 then Some (FValue members key :: below, BeginValue) else None
    | FNext members :: below =>
        if byte_is c 44 then Some (FKey members :: below, BeginString)
        else if byte_is c 125 then finish (JObject (rev members)) below
        else None
    | _ => None
    end.

(** The byte after a complete value: [stateEndValue], or [stateEndTop] when
    the value was the top-level one. *)
Definition afterValue (st : option scanState) (c : ascii) : option scanState :=
  match st with
  | Some (stack, EndValue) => endValue stack c
  | Some (stack, EndTop v) => if isSpace c then Some (stack, EndTop v) else None
  | _ => None
  end.

(** [stateBeginValue] on a byte that is not white space. *)
Definition beginValue (stack : list frame) (c : ascii) : option scanState :=
  if byte_is c 123 then Some (FKey [] :: stack, BeginStringOrEmpty)
  else if byte_is c 91 then Some (FArray [] :: stack, BeginValueOrEmpty)
  else if byte_is c 34 then Some (stack, InString "")
  else if byte_is c 45 then Some (stack, InNumber NumNeg (snoc "" c))
  else if byte_is c 48 then Some (stack, InNumber Num0 (snoc "" c))
  else if byte_is c 116 then Some (stack, InLiteral "rue" (JBool true))
  else if byte_is c 102 then Some (stack, InLiteral "alse" (JBool false))
  else if byte_is c 110 then Some (stack, InLiteral "ull" JNull)
  else if between 49 57 c then Some (stack, InNumber Num1 (snoc "" c))
  else None.

(** The states of a number literal. *)
Definition numberStep (stack : list frame) (st : numberState) (literal : string) (c : ascii)
  : option scanState :=
  let more st' := Some (stack, InNumber st' (snoc literal c)) in
  let done := afterValue (finish (JNumber literal) stack) c in
  let after0 := if byte_is c 46 then more NumDot
                else if byte_is c 101 || byte_is c 69 then more NumE
                else done in
  match st with
  | NumNeg => if byte_is c 48 then more Num0 else if between 49 57 c then more Num1 else None
  | Num1 => if isDigit c then more Num1 else after0
  | Num0 => after0
  | NumDot => if isDigit c then more NumDot0 else None
  | NumDot0 => if isDigit c then more NumDot0
               else if byte_is c 101 || byte_is c 69 then more NumE
               else done
  | NumE => if byte_is c 43 || byte_is c 45 then more NumESign
            else if isDigit c then more NumE0 else None
  | NumESign => if isDigit c then more NumE0 else None
  | NumE0 => if isDigit c then more NumE0 else done
  end.

(** One byte. [None] is a syntax error. *)
Definition step (st : scanState) (c : ascii) : option scanState :=
  let '(stack, lx) := st in
  match lx with
  | BeginValue => if isSpace c then Some st else beginValue stack c
  | BeginValueOrEmpty =>
      if isSpace c then Some st
      else if byte_is c 93 then
        match stack with
        | FArray elems :: below => finish (JArray (rev elems)) below
        | _ => None
        end
      else beginValue stack c
  | BeginString =>
      if isSpace c then Some st
      else if byte_is c 34 then Some (stack, InString "")
      else None
  | BeginStringOrEmpty =>
      if isSpace c then Some st
      else if byte_is c 125 then
        match stack with
        | FKey members :: below => finish (JObject (rev members)) below
        | _ => None
        end
      else if byte_is c 34 then Some (stack, InString "")
      else None
  | EndValue => endValue stack c
  | EndTop v => if isSpace c then Some st else None
  | InString raw =>
      if byte_is c 34 then finish (JString (unquote raw)) stack
      else if byte_is c 92 then Some (stack, InStringEsc (snoc raw c))
      else if (code c <? 32)%N then None
      else Some (stack, InString (snoc raw c))
  | InStringEsc raw =>
      if byte_is c 98 || byte_is c 102 || byte_is c 110 || byte_is c 114 || byte_is c 116
         || byte_is c 92 || byte_is c 47 || byte_is c 34
      then Some (stack, InString (snoc raw c))
      else if byte_is c 117 then Some (stack, InStringEscU (snoc raw c) 4)
      else None
  | InStringEscU raw todo =>
      if isHex c then
        match todo with
        | 0 => None
        | 1 => Some (stack, InString (snoc raw c))
        | S todo' => Some (stack, InStringEscU (snoc raw c) todo')
        end
      else None
  | InNumber st' literal => numberStep stack st' literal c
  | InLiteral todo v =>
      match todo with
      | EmptyString => None
      | String d rest =>
          if Ascii.eqb c d then
            match rest with
            | EmptyString => finish v stack
            | _ => Some (stack, InLiteral rest v)
            end
          else None
      end
  end.

Fixpoint steps (st : scanState) (data : string) : option scanState :=
  match data with
  | EmptyString => Some st
  | String c rest =>
      match step st c with
      | Some st' => steps st' rest
      | None => None
      end
  end.

(** The value of a JSON text, or [None] when the text is not one
    ([checkValid] fails).  At the end of the input the scanner is fed one
    space and must then have completed the top-level value.  (Later releases
    of the package refuse texts nested deeper than 10000 levels; the limit is
    not part of the model.) *)
Definition scan (data : string) : option json :=
  match steps ([], BeginValue) data with
  | Some st =>
      match step st " "%char with
      | Some ([], EndTop v) => Some v
      | _ => None
      end
  | None => None
  end.

(** *** Storing the value *)

(** Into an [interface{}]: the decoder's untyped mode.  A key written twice
    in an object keeps its last value. *)
Fixpoint toInterface (v : json) : any :=
  match v with
  | JNull => Nil
  | JBool b => Bool b
  | JNumber literal => Number literal
  | JString s => Str s
  | JArray elems => Slice (map toInterface elems)
  | JObject members =>
      Map ((fix store (ms : list (string * json)) (m : gmap string any) : gmap string any :=
              match ms with
              | [] => m
              | (key, x) :: rest => store rest (<[key := toInterface x]> m)
              end) members ∅)
  end.

(** Into a [[]interface{}]: an array is stored element by element; [null]
    stores the nil slice; any other value is a type mismatch, which the
    decoder records and skips, leaving the nil slice. *)
Definition toSlice (v : json) : list any :=
  match v with
  | JArray elems => map toInterface elems
  | _ => []
  end.

(** The value of [services] (declared nil on line 52) after
    [json.Unmarshal([]byte(vcapservices), &services)].  A text that is not
    JSON is rejected before anything is stored; a top-level value that is
    not an object stores nothing; the members of an object are stored in the
    order written, each under its key, whether or not its value fitted.  The
    error [Unmarshal] returns takes no part: the source drops it. *)
Definition Unmarshal (data : string) : gmap string (list any) :=
  match scan data with
  | Some (JObject members) =>
      foldl (fun (m : gmap string (list any)) '(key, v) => <[key := toSlice v]> m) ∅ members
  | _ => ∅
  end.

(** ** The process environment *)

(** An entry [key=value] of the environment block, cut at its first [=]. *)
Fixpoint cutEntry (key : string) (entry : string) : option (string * string) :=
  match entry with
  | EmptyString => None
  | String c rest =>
      if byte_is c 61 then Some (key, rest) else cutEntry (snoc key c) rest
  end.

(** The first mention of a key is the one the process sees. *)
Fixpoint lookupEnv (key : string) (envs : list string) : option string :=
  match envs with
  | [] => None
  | entry :: rest =>
      match cutEntry "" entry with
      | Some (k, v) => if decide (k = key) then Some v else lookupEnv key rest
      | None => lookupEnv key rest
      end
  end.

(** [os.Getenv]: the value, or the empty string when the variable is not
    set; the empty key is never looked up. *)
Definition Getenv (envs : list string) (key : string) : string :=
  if decide (key = "") then "" else default "" (lookupEnv key envs).

(** ** Panics *)

Inductive panic : Type :=
| IndexOutOfRange (index length : nat)
| InterfaceConversion (found : any) (wanted : string).

(** A function that returns or panics. *)
Inductive result (A : Type) : Type :=
| Returned (a : A)
| Panicked (p : panic).
Arguments Returned {A} a.
Arguments Panicked {A} p.

#[global] Instance result_ret : MRet result := fun A x => Returned x.
#[global] Instance result_bind : MBind result :=
  fun A B f r => match r with Returned a => f a | Panicked p => Panicked p end.

(** [args[i]] *)
Definition index (args : list string) (i : nat) : result string :=
  match args !! i with
  | Some a => Returned a
  | None => Panicked (IndexOutOfRange i (List.length args))
  end.

(** [v.(string)] *)
Definition assertString (v : any) : result string :=
  match v with
  | Str s => Returned s
  | _ => Panicked (InterfaceConversion v "string")
  end.

(** [v.(map[string]interface{})] *)
Definition assertMap (v : any) : result (gmap string any) :=
  match v with
  | Map m => Returned m
  | _ => Panicked (InterfaceConversion v "map[string]interface {}")
  end.

(** [m[key]] on a [map[string]interface{}]: nil for a key that is absent. *)
Definition at_key (m : gmap string any) (key : string) : any := default Nil (m !! key).

(** ** [getServiceProperty] *)

(** The [for] loop of lines 60 to 72, on what is left of
    [services[serviceType]]. *)
Fixpoint bindingsLoop (args : list string) (serviceName propKey : string)
    (bindings : list any) : result string :=
  match bindings with
  | [] => Returned ""
  | binding :: rest =>
      svc ← assertMap binding;
      name ← assertString (at_key svc "name");
      if decide (serviceName = name) then
        if decide (List.length args = 3) then
          prop ← assertString (at_key svc propKey);
          Returned prop
        else if decide (List.length args = 4) then
          subPropKey ← index args 3;
          prop ← assertMap (at_key svc propKey);
          assertString (at_key prop subPropKey)
        else bindingsLoop args serviceName propKey rest
      else bindingsLoop args serviceName propKey rest
  end.

(** [func getServiceProperty(args []string) string] *)
Definition getServiceProperty (envs : list string) (args : list string) : result string :=
  let vcapservices := Getenv envs "VCAP_SERVICES" in
  serviceType ← index args 0;
  serviceName ← index args 1;
  propKey ← index args 2;
  let services := Unmarshal vcapservices in
  bindingsLoop args serviceName propKey (default [] (services !! serviceType)).

(** ** [html/template]: the directive fragment

    The templates covered are those made of literal text and of actions that
    call one directive with string constants: [{{port}}], [{{env "HOME"}}],
    [{{svcprop "db" "mydb" "uri"}}].  Anything else between the delimiters
    (pipelines, variables, control structures, comments, trim markers,
    escapes inside a constant) is [Unsupported]: the model takes no position
    on it.  One kind of malformed template is recognised whatever it holds:
    an action that is opened and not closed before the end of the text. *)

Inductive Node : Type :=
| TextNode (text : string)
| ActionNode (fn : string) (args : list string).

Inductive parseResult : Type :=
| Parsed (tree : list Node)
| ParseError
| Unsupported.

(** Where the reader stands: in text (possibly just after one [{]), or at
    some point of an action. *)
Inductive parseState : Type :=
| PText (text : string)
| PTextBrace (text : string)
| POpen
| PIdent (name : string)
| PSpace (name : string) (args : list string)
| PQuote (name : string) (args : list string) (cur : string)
| PArg (name : string) (args : list string)
| PClose (name : string) (args : list string).

Definition isLetter (c : ascii) : bool :=
  between 97 122 c || between 65 90 c || byte_is c 95.

Definition isBlank (c : ascii) : bool := byte_is c 32 || byte_is c 9.

(** The names in the [FuncMap] of [main]. *)
Definition isDirective (name : string) : bool :=
  bool_decide (name = "env" \/ name = "port" \/ name = "module" \/ name = "svcprop").

Definition textNode (text : string) : list Node :=
  if decide (text = "") then [] else [TextNode text].

(** The reader.  [nodes] are the nodes completed so far, last first.  An
    action that is opened and never closed is an error whatever it holds. *)
Fixpoint parseFrom (st : parseState) (nodes : list Node) (input : string) : parseResult :=
  match input with
  | EmptyString =>
      match st with
      | PText text => Parsed (rev nodes ++ textNode text)
      | PTextBrace text => Parsed (rev nodes ++ textNode (snoc text "{"))
      | _ => ParseError
      end
  | String c rest =>
      match st with
      | PText text =>
          if byte_is c 123 then parseFrom (PTextBrace text) nodes rest
          else parseFrom (PText (snoc text c)) nodes rest
      | PTextBrace text =>
          if byte_is c 123 then
            if contains "}}" rest then parseFrom POpen (rev (textNode text) ++ nodes) rest
            else ParseError
          else parseFrom (PText (snoc (snoc text "{") c)) nodes rest
      | POpen =>
          if isBlank c then parseFrom POpen nodes rest
          else if isLetter c then parseFrom (PIdent (snoc "" c)) nodes rest
          else Unsupported
      | PIdent name =>
          if isLetter c || isDigit c then parseFrom (PIdent (snoc name c)) nodes rest
          else if negb (isDirective name) then Unsupported
          else if isBlank c then parseFrom (PSpace name []) nodes rest
          else if byte_is c 125 then parseFrom (PClose name []) nodes rest
          else Unsupported
      | PSpace name args =>
          if isBlank c then parseFrom (PSpace name args) nodes rest
          else if byte_is c 34 then parseFrom (PQuote name args "") nodes rest
          else if byte_is c 125 then parseFrom (PClose name args) nodes rest
          else Unsupported
      | PQuote name args cur =>
          if byte_is c 34 then parseFrom (PArg name (args ++ [cur])) nodes rest
          else if byte_is c 92 || (code c <? 32)%N || (127 <=? code c)%N then Unsupported
          else parseFrom (PQuote name args (snoc cur c)) nodes rest
      | PArg name args =>
          if isBlank c then parseFrom (PSpace name args) nodes rest
          else if byte_is c 125 then parseFrom (PClose name args) nodes rest
          else Unsupported
      | PClose name args =>
          if byte_is c 125 then parseFrom (PText "") (ActionNode name args :: nodes) rest
          else Unsupported
      end
  end.

(** [template.New("conf").Funcs(funcMap).Parse(text)] *)
Definition template_Parse (text : string) : parseResult := parseFrom (PText "") [] text.

(** The escaper [html/template] appends to an action that stands in HTML
    text: seven bytes are replaced, every other byte is kept. *)
Definition htmlReplacement (c : ascii) : string :=
  if byte_is c 0 then replacement
  else if byte_is c 34 then "&#34;"
  else if byte_is c 38 then "&amp;"
  else if byte_is c 39 then "&#39;"
  else if byte_is c 43 then "&#43;"
  else if byte_is c 60 then "&lt;"
  else if byte_is c 62 then "&gt;"
  else String c EmptyString.

Fixpoint htmlEscaper (s : string) : string :=
  match s with
  | EmptyString => EmptyString
  | String c rest => htmlReplacement c +:+ htmlEscaper rest
  end.

(** What calling a function of the [FuncMap] comes to. *)
Inductive callResult : Type :=
| CallValue (v : string)
| CallError
| CallPanic (p : panic).

(** The [FuncMap] of [main], applied by the template to string arguments.
    The three functions of fixed arity refuse any other number of arguments;
    [svcprop] is variadic. *)
Definition callDirective (envs : list string) (fn : string) (args : list string) : callResult :=
  if decide (fn = "env") then
    match args with
    | [name] => CallValue (Getenv envs name)
    | _ => CallError
    end
  else if decide (fn = "port") then
    match args with
    | [] => CallValue (Getenv envs "PORT")
    | _ => CallError
    end
  else if decide (fn = "module") then
    match args with
    | [name] =>
        CallValue ("load_module " +:+ Join [Getenv envs "NGINX_MODULES"; name] +:+ ".so;")
    | _ => CallError
    end
  else if decide (fn = "svcprop") then
    match getServiceProperty envs args with
    | Returned v => CallValue v
    | Panicked p => CallPanic p
    end
  else CallError.

(** How an execution ends. *)
Inductive execEnd : Type :=
| ExecDone
| ExecError
| ExecPanic (p : panic)
| ExecUnsupported.

(** The nodes in order, each written as soon as it is evaluated; the result
    lists the writes made. *)
Fixpoint execNodes (envs : list string) (nodes : list Node) : list string * execEnd :=
  match nodes with
  | [] => ([], ExecDone)
  | TextNode text :: rest =>
      let '(writes, ending) := execNodes envs rest in (text :: writes, ending)
  | ActionNode fn args :: rest =>
      match callDirective envs fn args with
      | CallValue v =>
          let '(writes, ending) := execNodes envs rest in (htmlEscaper v :: writes, ending)
      | CallError => ([], ExecError)
      | CallPanic p => ([], ExecPanic p)
      end
  end.

Definition hasMarkup (n : Node) : bool :=
  match n with
  | TextNode text => contains "<" text
  | ActionNode _ _ => false
  end.

(** [t.Execute(w, nil)]: the writes made to [w], and how the execution ends.
    A template whose text holds no [<] stays in HTML text from end to end,
    so its text is written as it stands and every action is escaped by
    [htmlEscaper]; text with a [<] is outside the fragment. *)
Definition template_Execute (envs : list string) (tree : list Node) : list string * execEnd :=
  if existsb hasMarkup tree then ([], ExecUnsupported) else execNodes envs tree.

(** ** [main] *)

(** [os.Create]: an existing file is truncated, a missing one is created. *)
Definition Create (name : string) : Action (option error) :=
  _ ← emit (EvCreate name);
  files ← getFS;
  match files !! name with
  | Some (RegularFile _ true) | None =>
      _ ← putFS (<[name := RegularFile "" true]> files); mret None
  | Some (RegularFile _ false) | Some Denied =>
      mret (Some (ErrorString ("open " +:+ name +:+ ": permission denied")))
  | Some Directory =>
      mret (Some (ErrorString ("open " +:+ name +:+ ": is a directory")))
  end.

(** [fileHandle.Write]: the bytes go to the end of what this handle has
    written so far. *)
Definition Write (name : string) (data : string) : Action unit :=
  _ ← emit (EvWrite name data);
  files ← getFS;
  match files !! name with
  | Some (RegularFile content writable) =>
      putFS (<[name := RegularFile (content +:+ data) writable]> files)
  | _ => mret tt
  end.

Fixpoint WriteAll (name : string) (writes : list string) : Action unit :=
  match writes with
  | [] => mret tt
  | data :: rest => _ ← Write name data; WriteAll name rest
  end.

(** How the process ends: [main] returns, [log.Fatalf] prints and exits with
    status 1, or a panic is not recovered.  (A panic inside a directive ends
    the run without success in either of two ways, depending on the release
    of the template package: it is left to unwind the process, or it is
    turned into an error of [Execute] and reported by [log.Fatalf].  The
    model keeps it as a panic.) *)
Inductive exit : Type :=
| Exit0
| Fatal (format : string) (err : error)
| Panic (p : panic)
| OutsideFragment.

(** [func main()], with [os.Args] as [argv]. *)
Definition main (argv : list string) : Action exit :=
  match argv !! 1 with
  | None => mret (Panic (IndexOutOfRange 1 (List.length argv)))
  | Some filename =>
      '(body, err) ← ReadFile filename;
      match err with
      | Some e => mret (Fatal "Could not read config file: %s: %s" e)
      | None =>
          err ← Create filename;
          match err with
          | Some e => mret (Fatal "Could not open config file for writing: %s" e)
          | None =>
              match template_Parse body with
              | ParseError => mret (Fatal "Could not parse config file: %s" ParseFailure)
              | Unsupported => mret OutsideFragment
              | Parsed t =>
                  envs ← Environ;
                  let '(writes, ending) := template_Execute envs t in
                  _ ← WriteAll filename writes;
                  match ending with
                  | ExecDone => mret Exit0
                  | ExecError => mret (Fatal "Could not write config file: %s" ExecFailure)
                  | ExecPanic p => mret (Panic p)
                  | ExecUnsupported => mret OutsideFragment
                  end
              end
          end
      end
  end.

(** * Notions used in the statements *)

(** The effective constraint of section 4.1, steps 1 and 2, in the words of
    the specification: with an empty request, what the table binds to
    [mainline] (nothing, when it binds nothing); with a request that is a key
    of the table, the value bound to it; otherwise the request itself. *)
Definition effectiveConstraint (lines : gmap string string) (requestedSpec : string)
  : option string :=
  if decide (requestedSpec = "") then lines !! "mainline"
  else Some (default requestedSpec (lines !! requestedSpec)).

(** The shape section 6 of the specification gives the service-bindings
    variable: an object from service types to arrays of bindings; a binding
    is an object with a string [name] whose other properties are strings or
    objects of strings. *)
Definition isString (v : json) : bool :=
  match v with JString _ => true | _ => false end.

Definition propertyShape (v : json) : bool :=
  match v with
  | JString _ => true
  | JObject members => forallb (fun member => isString member.2) members
  | _ => false
  end.

Definition bindingShape (v : json) : bool :=
  match v with
  | JObject members =>
      existsb (fun member => bool_decide (member.1 = "name") && isString member.2) members
      && forallb (fun member => propertyShape member.2) members
  | _ => false
  end.

Definition expectedShape (v : json) : bool :=
  match v with
  | JObject members =>
      forallb (fun member => match member.2 with
                             | JArray bindings => forallb bindingShape bindings
                             | _ => false
                             end) members
  | _ => false
  end.

(** The member of an object that a lookup by [key] finds once the object is
    stored in a map: the last one written under that key. *)
Fixpoint lastMember (key : string) (members : list (string * json)) : option json :=
  match members with
  | [] => None
  | (k, v) :: rest =>
      match lastMember key rest with
      | Some x => Some x
      | None => if decide (k = key) then Some v else None
      end
  end.

(** A binding the loop passes over when looking for [serviceName]: an object
    whose [name] is a string other than [serviceName]. *)
Definition namedOtherwise (serviceName : string) (binding : any) : Prop :=
  exists svc name, binding = Map svc /\ svc !! "name" = Some (Str name) /\ name <> serviceName.

(** A binding that stops the loop: not an object, or an object whose [name]
    is missing or not a string. *)
Definition unnamed (binding : any) : Prop :=
  match binding with
  | Map svc => match at_key svc "name" with Str _ => False | _ => True end
  | _ => True
  end.

(** The bytes the escaper replaces, and the texts without any of them. *)
Definition htmlSpecial (c : ascii) : bool :=
  byte_is c 0 || byte_is c 34 || byte_is c 38 || byte_is c 39 || byte_is c 43
  || byte_is c 60 || byte_is c 62.

Fixpoint plain (s : string) : bool :=
  match s with
  | EmptyString => true
  | String c rest => negb (htmlSpecial c) && plain rest
  end.

(** * Worked examples: the data *)

(** A command runner whose processes succeed and touch nothing, and a host
    that draws the suffix [001] and copies nothing. *)
Definition quietCommand : Command :=
  mkCommand (fun _ _ _ files => (None, "", files)) (fun _ files => (None, files)).

Definition plainHost : Host :=
  mkHost (fun _ => inl "001") (fun _ _ files => (None, files)).

Definition exampleStager : Stager := mkStager "/app" "/deps/0" "0".

Definition exampleManifest : Manifest :=
  mkManifest (fun _ => ["1.25.0"; "1.25.3"; "1.26.1"]) "/buildpack".

(** The table of the end-to-end scenario of section 8, with one more line,
    [edge], whose value is the name of another line. *)
Definition exampleLines : gmap string string :=
  <["mainline" := "1.25.*"]> (<["stable" := "1.26.*"]> (<["edge" := "stable"]> ∅)).

Definition exampleSupplier : Supplier :=
  mkSupplier exampleStager exampleManifest quietCommand plainHost exampleLines.

(** The same supplier with a table that has neither [mainline] nor
    [stable]. *)
Definition bareSupplier : Supplier :=
  mkSupplier exampleStager exampleManifest quietCommand plainHost (<["edge" := "1.26.*"]> ∅).

(** A command runner whose syntax test fails after leaving a file behind in
    the directory it ran in. *)
Definition failingTest : Command :=
  mkCommand
    (fun dir _ _ files =>
       (Some (ErrorString "exit status 1"), "nginx: [emerg] unexpected end of file",
        <[Join [dir; "nginx.pid"] := RegularFile "" true]> files))
    (fun _ files => (None, files)).

Definition failingSupplier : Supplier :=
  mkSupplier exampleStager exampleManifest failingTest plainHost exampleLines.

(** A command runner whose renderer fails, and a host whose copy stops with
    an error after it has copied one file. *)
Definition failingRender : Command :=
  mkCommand (fun _ _ _ files => (None, "", files))
            (fun _ files => (Some (ErrorString "exit status 2"), files)).

Definition failingCopy : Host :=
  mkHost (fun _ => inl "001")
         (fun _ dst files =>
            (Some (ErrorString "read /app/secret: permission denied"),
             <[Join [dst; "nginx.conf"] := RegularFile "" true]> files)).

Definition unrenderedSupplier : Supplier :=
  mkSupplier exampleStager exampleManifest failingRender plainHost exampleLines.

Definition uncopiedSupplier : Supplier :=
  mkSupplier exampleStager exampleManifest quietCommand failingCopy exampleLines.

(** Three build directories: one without a configuration file, one whose
    configuration file never mentions the port, one that passes the first
    two stages. *)
Definition emptyBuild : World := mkWorld (<["/app" := Directory]> ∅) ["HOME=/home/vcap"] [].

Definition portlessBuild : World :=
  mkWorld (<["/app/nginx.conf" := RegularFile "events {} http { server { listen 80; } }" true]>
             (<["/app" := Directory]> ∅))
          ["HOME=/home/vcap"] [].

Definition goodBuild : World :=
  mkWorld (<["/app/nginx.conf" := RegularFile "events {} http { server { listen {{port}}; } }" true]>
             (<["/app" := Directory]> ∅))
          ["HOME=/home/vcap"] [].

(** Example texts are written with apostrophes where the text has double
    quotes. *)
Fixpoint dq (s : string) : string :=
  match s with
  | EmptyString => EmptyString
  | String c rest => String (if byte_is c 39 then ascii_of_N 34 else c) (dq rest)
  end.

(** A catalog with two bindings named [mydb] under [db], and one service
    type whose entry is not an array. *)
Definition catalogText : string :=
  dq "{'db':[{'name':'cache','uri':'redis://c'},{'name':'mydb','uri':'pg://one','creds':{'user':'bob'}},{'name':'mydb','uri':'pg://two'}],'other':5}".

Definition catalogEnv : list string :=
  ["PORT=8080"; "NGINX_MODULES=/deps/0/nginx/nginx/modules"; "GREETING=a<b&c";
   "VCAP_SERVICES=" +:+ catalogText].

(** The bindings of [catalogText] under [db], as decoded. *)
Definition cacheBinding : gmap string any :=
  <["name" := Str "cache"]> (<["uri" := Str "redis://c"]> ∅).

Definition firstBinding : gmap string any :=
  <["name" := Str "mydb"]>
    (<["uri" := Str "pg://one"]> (<["creds" := Map (<["user" := Str "bob"]> ∅)]> ∅)).

Definition secondBinding : gmap string any :=
  <["name" := Str "mydb"]> (<["uri" := Str "pg://two"]> ∅).

(** A process whose configuration file holds [text]. *)
Definition toolWorld (envs : list string) (text : string) : World :=
  mkWorld (<["/app/nginx.conf" := RegularFile text true]> ∅) envs [].

Definition toolArgs : list string := ["varify"; "/app/nginx.conf"].

(** * Part I, continued: the listing of aliases and versions *)

(** [sort.Strings]: the strings in increasing order, compared byte by byte.
    Whatever algorithm sorts them, the outcome is the one sorted arrangement
    of the strings ([sort_Strings_unique]). *)
Definition sort_Strings (a : list string) : list string := merge_sort String.le a.

(** The [for k, v := range s.VersionLines] loop of [availableVersions], over
    the entries in the order [order] in which the map yields them. *)
Fixpoint collectLines (order : list (string * string)) (allNames allSemver : list string)
  : list string * list string :=
  match order with
  | [] => (allNames, allSemver)
  | (k, v) :: rest =>
      if decide (k <> "") then collectLines rest (allNames ++ [k]) (allSemver ++ [v])
      else collectLines rest allNames allSemver
  end%list.

(** [func (s *Supplier) availableVersions() []string], for a given order of
    iteration over the table.  The language leaves that order open. *)
Definition availableVersionsIn (s : Supplier) (order : list (string * string)) : list string :=
  let allVersions := AllDependencyVersions (supplierManifest s) "nginx" in
  let '(allNames, allSemver) := collectLines order [] [] in
  ((sort_Strings allNames ++ sort_Strings allSemver) ++ allVersions)%list.

(** [availableVersions] with the order in which [map_to_list] yields the
    entries. *)
Definition availableVersions (s : Supplier) : list string :=
  availableVersionsIn s (map_to_list (VersionLines s)).

(** The supplier with the entry under the empty key taken out of its
    table. *)
Definition withoutEmptyLine (s : Supplier) : Supplier :=
  mkSupplier (supplierStager s) (supplierManifest s) (supplierCommand s) (supplierHost s)
    (delete "" (VersionLines s)).

(** A supplier whose table has an entry under the empty key. *)
Definition oddSupplier : Supplier :=
  mkSupplier exampleStager exampleManifest quietCommand plainHost
    (<["" := "1.26.*"]> exampleLines).
(** An entry of the table that the loop of [availableVersions] keeps. *)
Definition named_line (entry : string * string) : Prop := entry.1 <> "".

#[global] Instance named_line_dec entry : Decision (named_line entry).
Proof. unfold named_line. apply _. Defined.

(** * Part IV: supply.go, the staging run

    [Run] and the four steps it calls besides the validator.  The steps
    write to the logger and call the installer, the stager and three
    functions of the buildpack library; [Setup] assigns two fields of the
    supplier. *)

(** [NginxConfig] and [Config], the content of [buildpack.yml]. *)
Record NginxConfig : Type := mkNginxConfig {
  nginxVersion : string
}.

Record Config : Type := mkConfig {
  Nginx : NginxConfig
}.

(** What a staging run does, in order of occurrence: the events of the
    validator and of [libbuildpack.FileExists], the lines given to the
    logger, and the calls that reach outside the two files.  A log line is
    kept as the format and the values that fill it. *)
Inductive entry : Type :=
| Did (e : event)
| LogBeginStep (format : string) (args : list string)
| LogInfo (msg : string)
| LogWarning (msg : string)
| LogError (format : string) (cause : error)
| OnCopyFile (source destination : string)
| OnLoad (file : string)
| OnMkdir (path : string)
| OnInstallDependency (dep : Dependency) (outputDir : string)
| OnAddBinDependencyLink (destPath sourceName : string)
| OnWriteProfileD (scriptName scriptContents : string).

(** The collaborators of the staging run that the validator does not use:
    the [Installer] interface, two more methods of the [Stager] interface,
    [libbuildpack.CopyFile], and [libbuildpack.NewYAML().Load] for the two
    targets the source loads into.  Loading reads the files and assigns to
    its target; into [Config] it may have assigned before it fails. *)
Record Platform : Type := mkPlatform {
  installDependency : Dependency -> string -> gmap string node ->
                      option error * gmap string node;
  addBinDependencyLink : string -> string -> gmap string node ->
                         option error * gmap string node;
  writeProfileD : string -> string -> gmap string node ->
                  option error * gmap string node;
  copyFile : string -> string -> gmap string node -> option error * gmap string node;
  loadConfig : string -> gmap string node -> Config -> option error * Config;
  loadVersionLines : string -> gmap string node -> gmap string string + error
}.

(** The supplier during a run, with the files and the variables of the
    process, and the journal of what the run has done. *)
Record Staging : Type := mkStaging {
  supplier : Supplier;
  config : Config;
  files : gmap string node;
  variables : list string;
  journal : list entry
}.

Definition Stage (A : Type) : Type := Staging -> A * Staging.

#[global] Instance Stage_ret : MRet Stage := fun A x st => (x, st).
#[global] Instance Stage_bind : MBind Stage :=
  fun A B f m st => let '(x, st') := m st in f x st'.

Definition note (e : entry) : Stage unit :=
  fun st => (tt, mkStaging (supplier st) (config st) (files st) (variables st)
                   (journal st ++ [e])).

Definition getSupplier : Stage Supplier := fun st => (supplier st, st).

Definition getConfig : Stage Config := fun st => (config st, st).

(** A call that may change the files. *)
Definition call {R : Type} (e : entry)
    (f : gmap string node -> R * gmap string node) : Stage R :=
  fun st =>
    let '(r, files') := f (files st) in
    (r, mkStaging (supplier st) (config st) files' (variables st) (journal st ++ [e])).

(** An action of parts II and III within a staging run: its events go to the
    journal in the order in which it produced them. *)
Definition did {A : Type} (a : Action A) : Stage A :=
  fun st =>
    let '(r, w) := a (mkWorld (files st) (variables st) []) in
    (r, mkStaging (supplier st) (config st) (fs w) (environ w)
          (journal st ++ map Did (trace w))).

(** [libbuildpack.NewYAML().Load(configPath, &s.Config)] *)
Definition LoadConfig (p : Platform) (file : string) : Stage (option error) :=
  fun st =>
    let '(err, c) := loadConfig p file (files st) (config st) in
    (err, mkStaging (supplier st) c (files st) (variables st) (journal st ++ [OnLoad file])).

(** [libbuildpack.NewYAML().Load(..., &m)], giving [m.VersionLines]. *)
Definition LoadVersionLines (p : Platform) (file : string)
  : Stage (gmap string string + error) :=
  fun st =>
    (loadVersionLines p file (files st),
     mkStaging (supplier st) (config st) (files st) (variables st)
       (journal st ++ [OnLoad file])).

(** [s.VersionLines = m.VersionLines] *)
Definition setVersionLines (lines : gmap string string) : Stage unit :=
  fun st =>
    let s := supplier st in
    (tt, mkStaging
           (mkSupplier (supplierStager s) (supplierManifest s) (supplierCommand s)
              (supplierHost s) lines)
           (config st) (files st) (variables st) (journal st)).

(** [os.Mkdir(name, os.ModePerm)]: an error when the name is taken, a new
    directory otherwise.  As everywhere in this file a path is not examined
    for the directories above it. *)
Definition Mkdir (name : string) : Stage (option error) :=
  call (OnMkdir name)
    (fun files =>
       match files !! name with
       | Some _ => (Some (ErrorString ("mkdir " +:+ name +:+ ": file exists")), files)
       | None => (None, <[name := Directory]> files)
       end).

Definition newline : string := String (ascii_of_N 10) "".

Definition stableWarning : string :=
  dq "Warning: usage of 'stable' versions of NGINX is discouraged in most cases by the NGINX team.".

(** [func New(stager, manifest, installer, logger, command) *Supplier]: the
    fields not named in the literal are zero, a table without entries and a
    configuration without a version. *)
Definition New (stager : Stager) (manifest : Manifest) (command : Command) (host : Host)
  : Supplier * Config :=
  (mkSupplier stager manifest command host ∅, mkConfig (mkNginxConfig "")).

Module Supply.
Section Steps.
Context `{ConstraintLanguage}.
Variable p : Platform.

(** [func (s *Supplier) WriteProfileD() error] *)
Definition WriteProfileD : Stage (option error) :=
  s ← getSupplier;
  let script :=
    "export NGINX_MODULES=" +:+
    Join ["$DEPS_DIR"; DepsIdx (supplierStager s); "nginx"; "nginx"; "modules"] +:+
    newline +:+ "mkdir -p logs" in
  call (OnWriteProfileD "nginx" script) (writeProfileD p "nginx" script).

(** [func (s *Supplier) InstallVarify() error] *)
Definition InstallVarify : Stage (option error) :=
  s ← getSupplier;
  '(exists_, err) ← did (FileExists (Join [DepDir (supplierStager s); "bin"; "varify"]));
  match err return Stage (option error) with
  | Some e => mret (Some e)
  | None =>
      if (exists_ : bool) then mret None
      else
        let source := Join [RootDir (supplierManifest s); "bin"; "varify"] in
        let destination := Join [DepDir (supplierStager s); "bin"; "varify"] in
        call (OnCopyFile source destination) (copyFile p source destination)
  end.

(** [func (s *Supplier) Setup() error] *)
Definition Setup : Stage (option error) :=
  s ← getSupplier;
  let configPath := Join [BuildDir (supplierStager s); "buildpack.yml"] in
  '(exists_, err) ← did (FileExists configPath);
  match err return Stage (option error) with
  | Some e => mret (Some e)
  | None =>
      err ← (if (exists_ : bool) then LoadConfig p configPath else mret None);
      match err with
      | Some e => mret (Some e)
      | None =>
          m ← LoadVersionLines p (Join [RootDir (supplierManifest s); "manifest.yml"]);
          match m with
          | inr e => mret (Some e)
          | inl lines =>
              _ ← setVersionLines lines;
              let logsDirPath := Join [BuildDir (supplierStager s); "logs"] in
              err ← Mkdir logsDirPath;
              match err with
              | Some e => mret (Some (Errorf "Could not create 'logs' directory: %v" e))
              | None => mret None
              end
          end
      end
  end.

(** [func (s *Supplier) InstallNginx() error] *)
Definition InstallNginx : Stage (option error) :=
  s ← getSupplier;
  c ← getConfig;
  let '(dep, err) := findMatchingVersion s "nginx" (nginxVersion (Nginx c)) in
  match err with
  | Some e =>
      _ ← note (LogInfo ("Available versions: " +:+
                         String.concat ", " (availableVersions s)));
      mret (Some (Errorf "Could not determine version: %s" e))
  | None =>
      _ ← (if decide (nginxVersion (Nginx c) = "") then
             note (LogBeginStep "No nginx version specified - using mainline => %s"
                     [Version dep])
           else
             note (LogBeginStep "Requested nginx version: %s => %s"
                     [nginxVersion (Nginx c); Version dep]));
      let dir := Join [DepDir (supplierStager s); "nginx"] in
      _ ← (if isStableLine s (Version dep) then note (LogWarning stableWarning)
           else mret tt);
      err ← call (OnInstallDependency dep dir) (installDependency p dep dir);
      match err with
      | Some e => mret (Some e)
      | None =>
          call (OnAddBinDependencyLink (Join [dir; "nginx"; "sbin"; "nginx"]) "nginx")
            (addBinDependencyLink p (Join [dir; "nginx"; "sbin"; "nginx"]) "nginx")
      end
  end.

(** [if err := step; err != nil { s.Log.Error(format, err.Error()); return err }],
    followed by [rest]. *)
Definition orLog (step : Stage (option error)) (format : string)
    (rest : Stage (option error)) : Stage (option error) :=
  err ← step;
  match err with
  | Some e => _ ← note (LogError format e); mret (Some e)
  | None => rest
  end.

(** [func (s *Supplier) Run() error] *)
Definition Run : Stage (option error) :=
  _ ← note (LogBeginStep "Supplying nginx" []);
  orLog InstallVarify "Failed to copy verify: %s" (
  orLog Setup "Could not setup: %s" (
  orLog InstallNginx "Could not install nginx: %s" (
  orLog (s ← getSupplier; did (validateNginxConf s)) "Could not validate nginx.conf: %s" (
  orLog WriteProfileD "Could not write profile.d: %s" (
  mret None))))).

End Steps.
End Supply.

(** A line of the journal that reports an error: a call of [s.Log.Error] by
    [Run] or by a stage of the validator. *)
Definition errorLine (e : entry) : bool :=
  match e with
  | LogError _ _ | Did (EvLogError _) => true
  | _ => false
  end.

(** A step that writes no error line, at least when it succeeds. *)
Definition quietly (step : Stage (option error)) : Prop :=
  forall st, exists added : list entry,
    journal (step st).2 = (journal st ++ added)%list
    /\ ((step st).1 = None -> Forall (fun e => errorLine e = false) added).

(** A run that ends a failure with an error line that carries the error it
    returns and one of [formats], and writes no error line when it
    succeeds. *)
Definition reporting (formats : list string) (m : Stage (option error)) : Prop :=
  forall st, exists added : list entry,
    journal (m st).2 = (journal st ++ added)%list
    /\ match (m st).1 with
       | Some e => exists format before,
                     added = (before ++ [LogError format e])%list /\ format ∈ formats
       | None => Forall (fun e => errorLine e = false) added
       end.

(** The script [WriteProfileD] hands to the stager. *)
Definition profileScript (s : Supplier) : string :=
  "export NGINX_MODULES=" +:+
  Join ["$DEPS_DIR"; DepsIdx (supplierStager s); "nginx"; "nginx"; "modules"] +:+
  newline +:+ "mkdir -p logs".

(** The formats of the five error lines of [Run]. *)
Definition runFormats : list string :=
  ["Failed to copy verify: %s"; "Could not setup: %s"; "Could not install nginx: %s";
   "Could not validate nginx.conf: %s"; "Could not write profile.d: %s"].

(** A platform on which every call succeeds and changes nothing, whose
    [buildpack.yml] asks for the stable line and whose manifest holds the
    table of the examples. *)
Definition examplePlatform : Platform :=
  mkPlatform (fun _ _ files => (None, files)) (fun _ _ files => (None, files))
    (fun _ _ files => (None, files)) (fun _ _ files => (None, files))
    (fun _ _ _ => (None, mkConfig (mkNginxConfig "stable")))
    (fun _ _ => inl exampleLines).

(** A new supplier over a build directory. *)
Definition staging (w : World) : Staging :=
  let '(s, c) := New exampleStager exampleManifest quietCommand plainHost in
  mkStaging s c (fs w) (environ w) [].

(** A build directory that passes the validator and has a [logs] entry. *)
Definition loggedBuild : World :=
  mkWorld (<["/app/logs" := Directory]> (fs goodBuild)) (environ goodBuild) [].

(** * Further notions and example data *)

(** A binding the loop can pass: an object whose [name] is a string. *)
Definition named (binding : any) : Prop :=
  exists svc name, binding = Map svc /\ svc !! "name" = Some (Str name).

(** What a sequence of writes leaves in a file that was empty. *)
Definition written (writes : list string) : string := foldr String.append "" writes.

(** A process whose configuration file may not be written. *)
Definition readOnlyWorld : World :=
  mkWorld (<["/app/nginx.conf" := RegularFile "listen {{port}};" false]> ∅) catalogEnv [].

(** A build directory in which [nginx.conf] is a directory. *)
Definition directoryBuild : World :=
  mkWorld (<["/app/nginx.conf" := Directory]> (<["/app" := Directory]> ∅))
          ["HOME=/home/vcap"] [].

(** A host that cannot make a temporary directory. *)
Definition fullHost : Host :=
  mkHost (fun _ => inr (ErrorString "mkdir /tmp/conf001: no space left on device"))
         (fun _ _ files => (None, files)).

Definition crampedSupplier : Supplier :=
  mkSupplier exampleStager exampleManifest quietCommand fullHost exampleLines.

(** The command the syntax stage runs to render the copy in [tmpConfDir]. *)
Definition renderCommand (s : Supplier) (envs : list string) (tmpConfDir : string) : Cmd :=
  mkCmd (Join [DepDir (supplierStager s); "bin"; "varify"])
        [Join [DepDir (supplierStager s); "bin"; "varify"]; Join [tmpConfDir; "nginx.conf"]]
        tmpConfDir
        (envs ++ ["PORT=8080";
                  "NGINX_MODULES=" +:+
                  Join [DepDir (supplierStager s); "nginx"; "nginx"; "modules"]]).

(** A collaborator that leaves alone every path outside [root]. *)
Definition keepsOutside {R : Type} (root : string)
    (f : gmap string node -> R * gmap string node) : Prop :=
  forall files p, ~ within root p -> (f files).2 !! p = files !! p.

(** * Theorems, part I: version resolution *)

Section ResolverFacts.
Context `{ConstraintLanguage}.

Lemma highest_elem (versions : list string) (v : string) :
  highest versions = Some v -> v ∈ versions.
Proof.
  revert v. induction versions as [|x rest IH]; intros v; simpl; [done|].
  destruct (highest rest) as [w|] eqn:Hrest.
  - destruct (version_lt x w); intros [= <-].
    + right. by apply IH.
    + left.
  - intros [= <-]. left.
Qed.

Lemma highest_nil (versions : list string) :
  highest versions = None -> versions = [].
Proof.
  destruct versions as [|x rest]; simpl; [done|].
  destruct (highest rest); [destruct (version_lt x s)|]; discriminate.
Qed.

Lemma FindMatchingVersion_found (constraint : string) (versions : list string) (v : string) :
  FindMatchingVersion constraint versions = (v, None) ->
  v ∈ versions /\ satisfies constraint v = true.
Proof.
  unfold FindMatchingVersion.
  destruct (highest _) as [w|] eqn:Hw; [|discriminate].
  intros [= <-]. apply highest_elem, list_elem_of_filter in Hw. tauto.
Qed.

Lemma FindMatchingVersion_none (constraint : string) (versions : list string) :
  (forall v, v ∈ versions -> satisfies constraint v = false) ->
  FindMatchingVersion constraint versions
  = ("", Some (NoMatchingVersion constraint versions)).
Proof.
  intros Hno. unfold FindMatchingVersion.
  destruct (highest _) as [w|] eqn:Hw; [|done].
  apply highest_elem, list_elem_of_filter in Hw as [Hsat Hin].
  rewrite (Hno _ Hin) in Hsat. discriminate.
Qed.

Lemma FindMatchingVersion_some (constraint : string) (versions : list string) (v : string) :
  v ∈ versions -> satisfies constraint v = true ->
  exists w, FindMatchingVersion constraint versions = (w, None).
Proof.
  intros Hin Hsat. unfold FindMatchingVersion.
  destruct (highest _) as [w|] eqn:Hw; [by exists w|].
  apply highest_nil in Hw.
  assert (v ∈ filter (fun v => satisfies constraint v = true) versions) as Hv
    by (apply list_elem_of_filter; done).
  rewrite Hw in Hv. by apply elem_of_nil in Hv.
Qed.

Lemma matchAvailable_found (m : Manifest) (depName constraint : string) (dep : Dependency) :
  matchAvailable m depName constraint = (dep, None) ->
  Name dep = depName /\ Version dep ∈ AllDependencyVersions m depName
  /\ satisfies constraint (Version dep) = true.
Proof.
  unfold matchAvailable.
  destruct (FindMatchingVersion _ _) as [ver [err|]] eqn:Hfind; [discriminate|].
  intros [= <-]. apply FindMatchingVersion_found in Hfind. simpl. tauto.
Qed.

Lemma matchAvailable_none (m : Manifest) (depName constraint : string) :
  (forall v, v ∈ AllDependencyVersions m depName -> satisfies constraint v = false) ->
  matchAvailable m depName constraint
  = (zeroDependency, Some (NoMatchingVersion constraint (AllDependencyVersions m depName))).
Proof.
  intros Hno. unfold matchAvailable. by rewrite (FindMatchingVersion_none _ _ Hno).
Qed.

(** What [findMatchingVersion] does, by the effective constraint. *)
Lemma findMatchingVersion_effective (s : Supplier) (depName requestedSpec : string) :
  findMatchingVersion s depName requestedSpec =
  match effectiveConstraint (VersionLines s) requestedSpec with
  | Some c => matchAvailable (supplierManifest s) depName c
  | None => (zeroDependency, Some (ErrorString noMainlineMessage))
  end.
Proof.
  unfold findMatchingVersion, effectiveConstraint.
  destruct (decide (requestedSpec = "")); [done|].
  by destruct (VersionLines s !! requestedSpec).
Qed.

(** C3.  An empty request is resolved with the constraint bound to
    [mainline], and fails with the "no mainline" error when the table binds
    nothing to it; a request that is a key of the table is resolved with the
    value bound to it.  In both cases the bound value goes to the matching
    step as it stands: the outcome is that of [matchAvailable], which never
    sees the table, so the value is not looked up again. *)
Theorem alias_substituted_once (s : Supplier) (depName requestedSpec : string) :
  (requestedSpec = "" -> VersionLines s !! "mainline" = None ->
   findMatchingVersion s depName requestedSpec
   = (zeroDependency, Some (ErrorString noMainlineMessage)))
  /\ (requestedSpec = "" -> forall bound, VersionLines s !! "mainline" = Some bound ->
      findMatchingVersion s depName requestedSpec
      = matchAvailable (supplierManifest s) depName bound)
  /\ (requestedSpec <> "" -> forall bound, VersionLines s !! requestedSpec = Some bound ->
      findMatchingVersion s depName requestedSpec
      = matchAvailable (supplierManifest s) depName bound).
Proof.
  unfold findMatchingVersion. repeat split.
  - intros -> Hnone. rewrite decide_True by done. by rewrite Hnone.
  - intros -> bound Hbound. rewrite decide_True by done. by rewrite Hbound.
  - intros Hne bound Hbound. rewrite decide_False by done. by rewrite Hbound.
Qed.

(** C4.  A successful resolution returns the requested name with a version
    that is a member of the versions the manifest lists for it, and that
    satisfies the effective constraint; when no listed version satisfies the
    effective constraint the resolution fails with [NoMatchingVersion] and
    the dependency returned beside the error is the zero value, whose
    version is empty. *)
Theorem resolved_version_is_available (s : Supplier) (depName requestedSpec : string) :
  (forall dep, findMatchingVersion s depName requestedSpec = (dep, None) ->
     Name dep = depName
     /\ Version dep ∈ AllDependencyVersions (supplierManifest s) depName
     /\ exists c, effectiveConstraint (VersionLines s) requestedSpec = Some c
                  /\ satisfies c (Version dep) = true)
  /\ (forall c, effectiveConstraint (VersionLines s) requestedSpec = Some c ->
      (forall v, v ∈ AllDependencyVersions (supplierManifest s) depName ->
                 satisfies c v = false) ->
      findMatchingVersion s depName requestedSpec
      = (zeroDependency,
         Some (NoMatchingVersion c (AllDependencyVersions (supplierManifest s) depName)))
      /\ Version (findMatchingVersion s depName requestedSpec).1 = "").
Proof.
  rewrite findMatchingVersion_effective. split.
  - intros dep. destruct (effectiveConstraint _ _) as [c|]; [|discriminate].
    intros Hdep. apply matchAvailable_found in Hdep as (? & ? & ?). eauto.
  - intros c -> Hno. by rewrite (matchAvailable_none _ _ _ Hno).
Qed.

(** C5.  [isStableLine] holds of a version exactly when the version
    satisfies the constraint the table binds to [stable]; it is a function of
    the table and the version alone, so it does not matter which version a
    resolution selected.  With no [stable] entry the constraint read from the
    table is the empty string (the zero value of the map's element type), and
    the same equivalence holds for it. *)
Theorem isStableLine_iff_stable_constraint (s : Supplier) (version : string) :
  (forall bound, VersionLines s !! "stable" = Some bound ->
     (isStableLine s version = true <-> satisfies bound version = true))
  /\ (VersionLines s !! "stable" = None ->
      (isStableLine s version = true <-> satisfies "" version = true)).
Proof.
  assert (forall c, (match FindMatchingVersion c [version] with
                     | (_, None) => true | (_, Some _) => false end) = true
                    <-> satisfies c version = true) as Hsingle.
  { intros c. destruct (FindMatchingVersion c [version]) as [w [err|]] eqn:Hfind.
    - split; [discriminate|]. intros Hsat.
      destruct (FindMatchingVersion_some c [version] version) as [w' Hw']; [left|done|].
      congruence.
    - apply FindMatchingVersion_found in Hfind as [Hin Hsat].
      apply list_elem_of_singleton in Hin as ->. tauto. }
  unfold isStableLine. split.
  - intros bound ->. apply Hsingle.
  - intros ->. apply Hsingle.
Qed.

End ResolverFacts.

(** The end-to-end scenario of section 8. *)
Example scenario_mainline :
  @findMatchingVersion Wildcard.language exampleSupplier "nginx" ""
  = (mkDependency "nginx" "1.25.3", None).
Proof. reflexivity. Qed.

Example scenario_stable :
  @findMatchingVersion Wildcard.language exampleSupplier "nginx" "stable"
  = (mkDependency "nginx" "1.26.1", None)
  /\ @isStableLine Wildcard.language exampleSupplier "1.26.1" = true.
Proof. split; reflexivity. Qed.

(** A line whose value names another line: the value is the constraint. *)
Example scenario_edge :
  @findMatchingVersion Wildcard.language exampleSupplier "nginx" "edge"
  = (zeroDependency, Some (NoMatchingVersion "stable" ["1.25.0"; "1.25.3"; "1.26.1"])).
Proof. reflexivity. Qed.

Lemma alias_substituted_once_witness :
  @findMatchingVersion Wildcard.language bareSupplier "nginx" ""
  = (zeroDependency, Some (ErrorString noMainlineMessage))
  /\ @findMatchingVersion Wildcard.language exampleSupplier "nginx" ""
     = @matchAvailable Wildcard.language exampleManifest "nginx" "1.25.*"
  /\ @findMatchingVersion Wildcard.language exampleSupplier "nginx" "edge"
     = @matchAvailable Wildcard.language exampleManifest "nginx" "stable".
Proof.
  split; [|split].
  - apply (proj1 (@alias_substituted_once Wildcard.language bareSupplier "nginx" ""));
      reflexivity.
  - apply (proj1 (proj2 (@alias_substituted_once Wildcard.language exampleSupplier
                           "nginx" "")));
      reflexivity.
  - apply (proj2 (proj2 (@alias_substituted_once Wildcard.language exampleSupplier
                           "nginx" "edge")));
      [discriminate | reflexivity].
Defined.

Lemma resolved_version_is_available_witness :
  "1.26.1" ∈ ["1.25.0"; "1.25.3"; "1.26.1"]
  /\ @findMatchingVersion Wildcard.language exampleSupplier "nginx" "1.24.*"
     = (zeroDependency, Some (NoMatchingVersion "1.24.*" ["1.25.0"; "1.25.3"; "1.26.1"])).
Proof.
  split.
  - exact (proj1 (proj2 (proj1 (@resolved_version_is_available Wildcard.language
                                  exampleSupplier "nginx" "stable")
                                (mkDependency "nginx" "1.26.1") eq_refl))).
  - apply (proj2 (@resolved_version_is_available Wildcard.language exampleSupplier
                    "nginx" "1.24.*") "1.24.*"); [reflexivity|].
    intros v Hv. repeat (apply elem_of_cons in Hv as [->|Hv]; [reflexivity|]).
    by apply elem_of_nil in Hv.
Defined.

Lemma isStableLine_iff_stable_constraint_witness :
  @isStableLine Wildcard.language exampleSupplier "1.26.1" = true
  /\ (@isStableLine Wildcard.language bareSupplier "1.26.1" = true
      <-> Wildcard.wildcard_satisfies "" "1.26.1" = true).
Proof.
  split.
  - apply (proj1 (@isStableLine_iff_stable_constraint Wildcard.language exampleSupplier
                    "1.26.1") "1.26.*"); reflexivity.
  - apply (proj2 (@isStableLine_iff_stable_constraint Wildcard.language bareSupplier
                    "1.26.1")).
    reflexivity.
Defined.

(** * Theorems, part II: the validator *)

(** Paths and texts are not to be computed with while reasoning about the
    stages; [run] unfolds the plumbing of [Action]. *)
#[local] Arguments Join : simpl never.
#[local] Arguments Clean : simpl never.
#[local] Arguments contains : simpl never.
#[local] Arguments String.append : simpl never.

Ltac run :=
  unfold mbind, mret, Action_bind, Action_ret, emit, getFS, putFS, Environ in *;
  cbn [fs environ trace fst snd] in *.

Lemma bind_run {A B : Type} (m : Action A) (f : A -> Action B) (w w1 : World) (a : A) :
  m w = (a, w1) -> (m ≫= f) w = f a w1.
Proof. intros Hm. unfold mbind, Action_bind. by rewrite Hm. Qed.

Lemma RemoveAll_spec (path : string) (w : World) :
  RemoveAll path w
  = (None, mkWorld (filter (fun entry => ¬ within path entry.1) (fs w)) (environ w)
                   (trace w ++ [EvRemoveAll path])).
Proof. reflexivity. Qed.

Lemma RemoveAll_gone (path p : string) (w : World) :
  within path p -> fs (RemoveAll path w).2 !! p = None.
Proof.
  intros Hin. rewrite RemoveAll_spec. simpl.
  apply map_lookup_filter_None. right. intros x _ Hout. by apply Hout.
Qed.

(** A deferred [os.RemoveAll] is the last thing its function does, whatever
    the rest of the function did and however it returned. *)
Lemma defer_RemoveAll {A : Type} (body : Action A) (path : string) (w : World) :
  let after := (defer (RemoveAll path) body w).2 in
  (forall p, within path p -> fs after !! p = None)
  /\ last (trace after) = Some (EvRemoveAll path)
  /\ (defer (RemoveAll path) body w).1 = (body w).1.
Proof.
  unfold defer. destruct (body w) as [r w1]. simpl. split; [|split; [|done]].
  - intros p Hin. apply (RemoveAll_gone path p w1 Hin).
  - apply last_snoc.
Qed.

Lemma TempDir_created (h : Host) (dir pattern tmp : string) (w w1 : World) :
  TempDir h dir pattern w = ((tmp, None), w1) ->
  fs w !! tmp = None /\ fs w1 !! tmp = Some Directory.
Proof.
  unfold TempDir. run.
  destruct (tempSuffix h (fs w)) as [suffix|err]; [|discriminate].
  destruct (fs w !! Join [dir; pattern +:+ suffix]) as [n|] eqn:Hfree; [discriminate|].
  intros [= <- <-]. cbn [fs]. split; [done|]. by rewrite lookup_insert_eq.
Qed.

(** C8.  The validator is a pipeline of three stages run in order, each only
    when the one before it returned no error.  With no configuration file the
    run ends with the "no nginx" error after one existence test and one log
    line: nothing is read, copied, rendered or tested.  With a configuration
    file whose text, as it stands on disk, does not contain the port
    placeholder, the run ends with the "no port" error after the existence
    test, one read and one log line: no temporary directory is made, and
    neither the renderer nor the server's syntax test is started. *)
Theorem validateNginxConf_pipeline (s : Supplier) (w : World) :
  let conf := Join [BuildDir (supplierStager s); "nginx.conf"] in
  (fs w !! conf = None ->
   validateNginxConf s w
   = (Some (ErrorString "no nginx"),
      mkWorld (fs w) (environ w)
        (trace w ++ [EvStat conf;
                     EvLogError "nginx.conf file must be present at the app root"])))
  /\ (forall content writable,
      fs w !! conf = Some (RegularFile content writable) ->
      contains "{{port}}" content = false ->
      validateNginxConf s w
      = (Some (ErrorString "no {{port}} in nginx.conf"),
         mkWorld (fs w) (environ w)
           (trace w ++ [EvStat conf; EvReadFile conf;
                        EvLogError "nginx.conf file must be configured to respect the value of `{{port}}`"])))
  /\ (forall e w1, validateNginxConfExists s w = (Some e, w1) ->
      validateNginxConf s w = (Some e, w1))
  /\ (forall e w1 w2, validateNginxConfExists s w = (None, w1) ->
      validateNginxConfHasPort s w1 = (Some e, w2) ->
      validateNginxConf s w = (Some e, w2))
  /\ (forall w1 w2, validateNginxConfExists s w = (None, w1) ->
      validateNginxConfHasPort s w1 = (None, w2) ->
      validateNginxConf s w = validateNginxConfSyntax s w2).
Proof.
  intros conf. repeat split.
  - intros Habsent. unfold validateNginxConf, validateNginxConfExists, FileExists.
    run. fold conf. rewrite Habsent. cbn. by rewrite <- app_assoc.
  - intros content writable Hfile Hport.
    unfold validateNginxConf, validateNginxConfExists, validateNginxConfHasPort,
      FileExists, ReadFile, matchPort.
    run. fold conf. rewrite Hfile. cbn. rewrite Hfile. cbn. rewrite Hport. cbn.
    by rewrite <- !app_assoc.
  - intros e w1 Hfirst. unfold validateNginxConf. run. by rewrite Hfirst.
  - intros e w1 w2 Hfirst Hsecond. unfold validateNginxConf. run.
    rewrite Hfirst. by rewrite Hsecond.
  - intros w1 w2 Hfirst Hsecond. unfold validateNginxConf. run.
    rewrite Hfirst. by rewrite Hsecond.
Qed.

(** C9.  Once the temporary directory has been created, the syntax stage
    ends by removing it on every path: when the stage returns, neither the
    directory nor anything below it exists, and the removal is the last
    thing the stage did.  This holds for every command runner and every copy
    routine, whatever they return and whatever they do to the files. *)
Theorem syntax_stage_removes_temp_dir (s : Supplier) (w w1 : World) (tmpConfDir : string) :
  TempDir (supplierHost s) "/tmp" "conf" w = ((tmpConfDir, None), w1) ->
  fs w1 !! tmpConfDir = Some Directory
  /\ (forall p, within tmpConfDir p -> fs (validateNginxConfSyntax s w).2 !! p = None)
  /\ last (trace (validateNginxConfSyntax s w).2) = Some (EvRemoveAll tmpConfDir).
Proof.
  intros Hcreated. split; [by apply (TempDir_created _ _ _ _ _ _ Hcreated)|].
  unfold validateNginxConfSyntax.
  rewrite (bind_run _ _ _ _ _ Hcreated). cbv beta iota.
  match goal with
  | |- context [defer (RemoveAll tmpConfDir) ?body w1] =>
      destruct (defer_RemoveAll body tmpConfDir w1) as (Hgone & Hlast & _)
  end.
  split; [exact Hgone | exact Hlast].
Qed.

(** The stages on the example build directories. *)
Example syntax_failure_run :
  validateNginxConf failingSupplier goodBuild
  = (Some (Errorf "nginx.conf contains syntax errors: %s" (ErrorString "exit status 1")),
     mkWorld (fs goodBuild) (environ goodBuild)
       [EvStat "/app/nginx.conf"; EvReadFile "/app/nginx.conf";
        EvTempDir "/tmp" "conf"; EvCopyDirectory "/app" "/tmp/conf001";
        EvRun (mkCmd "/deps/0/bin/varify"
                 ["/deps/0/bin/varify"; "/tmp/conf001/nginx.conf"] "/tmp/conf001"
                 ["HOME=/home/vcap"; "PORT=8080";
                  "NGINX_MODULES=/deps/0/nginx/nginx/modules"]);
        EvExecute "/tmp/conf001" "/deps/0/nginx/nginx/sbin/nginx"
          ["-t"; "-c"; "/tmp/conf001/nginx.conf"; "-p"; "/tmp/conf001"];
        EvStderr "nginx: [emerg] unexpected end of file";
        EvRemoveAll "/tmp/conf001"]).
Proof. vm_compute. reflexivity. Qed.

(** The other ways out of the syntax stage: a copy that fails, a render that
    fails, and success.  Each leaves the files as they were before the
    stage. *)
Example copy_failure_run :
  (validateNginxConfSyntax uncopiedSupplier goodBuild).1
  = Some (Errorf "Error copying nginx.conf: %s"
            (ErrorString "read /app/secret: permission denied"))
  /\ fs (validateNginxConfSyntax uncopiedSupplier goodBuild).2 = fs goodBuild.
Proof. split; vm_compute; reflexivity. Qed.

Example render_failure_run :
  (validateNginxConfSyntax unrenderedSupplier goodBuild).1
  = Some (ErrorString "exit status 2")
  /\ fs (validateNginxConfSyntax unrenderedSupplier goodBuild).2 = fs goodBuild.
Proof. split; vm_compute; reflexivity. Qed.

Example success_run :
  (validateNginxConfSyntax exampleSupplier goodBuild).1 = None
  /\ fs (validateNginxConfSyntax exampleSupplier goodBuild).2 = fs goodBuild.
Proof. split; vm_compute; reflexivity. Qed.

Lemma validateNginxConf_pipeline_witness :
  validateNginxConf exampleSupplier emptyBuild
  = (Some (ErrorString "no nginx"),
     mkWorld (fs emptyBuild) (environ emptyBuild)
       [EvStat "/app/nginx.conf";
        EvLogError "nginx.conf file must be present at the app root"])
  /\ validateNginxConf exampleSupplier portlessBuild
     = (Some (ErrorString "no {{port}} in nginx.conf"),
        mkWorld (fs portlessBuild) (environ portlessBuild)
          [EvStat "/app/nginx.conf"; EvReadFile "/app/nginx.conf";
           EvLogError "nginx.conf file must be configured to respect the value of `{{port}}`"]).
Proof.
  split.
  - apply (proj1 (validateNginxConf_pipeline exampleSupplier emptyBuild)).
    reflexivity.
  - apply (proj1 (proj2 (validateNginxConf_pipeline exampleSupplier portlessBuild))
             "events {} http { server { listen 80; } }" true); reflexivity.
Defined.

Lemma syntax_stage_removes_temp_dir_witness :
  fs (validateNginxConfSyntax failingSupplier goodBuild).2 !! "/tmp/conf001/nginx.pid" = None
  /\ fs (validateNginxConfSyntax failingSupplier goodBuild).2 !! "/tmp/conf001" = None
  /\ last (trace (validateNginxConfSyntax failingSupplier goodBuild).2)
     = Some (EvRemoveAll "/tmp/conf001").
Proof.
  destruct (syntax_stage_removes_temp_dir failingSupplier goodBuild
              (mkWorld (<["/tmp/conf001" := Directory]> (fs goodBuild))
                 (environ goodBuild) [EvTempDir "/tmp" "conf"])
              "/tmp/conf001" eq_refl) as (_ & Hgone & Hlast).
  split; [|split].
  - apply Hgone. right. reflexivity.
  - apply Hgone. left. reflexivity.
  - exact Hlast.
Defined.

(** * Theorems, part III: the rendering tool *)

(** ** The catalog as the loop sees it *)

Lemma store_lookup (members : list (string * json)) (m : gmap string (list any)) (key : string) :
  foldl (fun (m : gmap string (list any)) '(k, v) => <[k := toSlice v]> m) m members !! key
  = match lastMember key members with
    | Some v => Some (toSlice v)
    | None => m !! key
    end.
Proof.
  revert m. induction members as [|[k v] rest IH]; intros m; simpl; [done|].
  rewrite IH. destruct (lastMember key rest) as [x|]; [done|].
  destruct (decide (k = key)) as [->|Hne].
  - by rewrite lookup_insert_eq.
  - by rewrite lookup_insert_ne.
Qed.

(** What [services[serviceType]] is after [json.Unmarshal]. *)
Lemma Unmarshal_lookup (data serviceType : string) :
  default [] (Unmarshal data !! serviceType)
  = match scan data with
    | Some (JObject members) =>
        match lastMember serviceType members with
        | Some (JArray elems) => map toInterface elems
        | _ => []
        end
    | _ => []
    end.
Proof.
  unfold Unmarshal. destruct (scan data) as [[| | | | |members]|]; try done.
  rewrite store_lookup, lookup_empty.
  by destruct (lastMember serviceType members) as [[]|].
Qed.

Lemma scan_empty : scan "" = None.
Proof. reflexivity. Qed.

Lemma Getenv_unset (envs : list string) (key : string) :
  lookupEnv key envs = None -> Getenv envs key = "".
Proof. unfold Getenv. intros ->. by destruct (decide (key = "")). Qed.

(** ** The loop *)

Lemma bindingsLoop_skip (args : list string) (serviceName propKey : string)
    (before rest : list any) :
  Forall (namedOtherwise serviceName) before ->
  bindingsLoop args serviceName propKey (before ++ rest)
  = bindingsLoop args serviceName propKey rest.
Proof.
  induction 1 as [|binding before (svc & name & -> & Hname & Hne) _ IH]; [done|].
  simpl. unfold at_key. rewrite Hname. simpl.
  by rewrite decide_False by congruence.
Qed.

Lemma bindingsLoop_unmatched (args : list string) (serviceName propKey : string)
    (bindings : list any) :
  Forall (namedOtherwise serviceName) bindings ->
  bindingsLoop args serviceName propKey bindings = Returned "".
Proof.
  intros Hall. rewrite <- (app_nil_r bindings). by rewrite bindingsLoop_skip.
Qed.

Lemma getServiceProperty_loop (envs args : list string) (serviceType serviceName propKey : string) :
  args !! 0 = Some serviceType -> args !! 1 = Some serviceName -> args !! 2 = Some propKey ->
  getServiceProperty envs args
  = bindingsLoop args serviceName propKey
      (default [] (Unmarshal (Getenv envs "VCAP_SERVICES") !! serviceType)).
Proof.
  intros H0 H1 H2. unfold getServiceProperty, index. rewrite H0, H1, H2. reflexivity.
Qed.

Lemma args_at_least_three (args : list string) :
  3 <= List.length args ->
  exists serviceType serviceName propKey,
    args !! 0 = Some serviceType /\ args !! 1 = Some serviceName /\ args !! 2 = Some propKey.
Proof.
  destruct args as [|a0 [|a1 [|a2 rest]]]; simpl; try lia. intros _. by exists a0, a1, a2.
Qed.

Lemma bindingsLoop_unnamed (args : list string) (serviceName propKey : string)
    (binding : any) (rest : list any) :
  unnamed binding ->
  exists p, bindingsLoop args serviceName propKey (binding :: rest) = Panicked p.
Proof.
  destruct binding as [| | | | |svc]; simpl; eauto.
  destruct (at_key svc "name"); simpl; eauto. done.
Qed.

(** ** The claims about [svcprop] *)

(** C1 (as amended).  When [svcprop] is called with three or four arguments
    and every binding under the service type is an object with a string name
    other than the service name (a service type without bindings included),
    it returns the empty string and the render goes on, writing nothing in
    that position.  The render fails only where the loop meets a binding
    that is not an object with a string name. *)
Theorem svcprop_unmatched_returns_empty (envs args : list string)
    (serviceType serviceName : string) :
  List.length args = 3 \/ List.length args = 4 ->
  args !! 0 = Some serviceType -> args !! 1 = Some serviceName ->
  let bindings := default [] (Unmarshal (Getenv envs "VCAP_SERVICES") !! serviceType) in
  (Forall (namedOtherwise serviceName) bindings ->
   getServiceProperty envs args = Returned ""
   /\ forall rest, execNodes envs (ActionNode "svcprop" args :: rest)
                   = ("" :: (execNodes envs rest).1, (execNodes envs rest).2))
  /\ (forall (before : list any) (binding : any) (after : list any),
      bindings = (before ++ binding :: after)%list ->
      Forall (namedOtherwise serviceName) before -> unnamed binding ->
      exists p, getServiceProperty envs args = Panicked p).
Proof.
  intros Hlen H0 H1 bindings.
  destruct (args_at_least_three args) as (t & n & propKey & H0' & H1' & H2); [lia|].
  assert (t = serviceType) as -> by congruence.
  assert (n = serviceName) as -> by congruence.
  rewrite (getServiceProperty_loop envs args serviceType serviceName propKey H0 H1 H2).
  fold bindings. split.
  - intros Hall.
    assert (getServiceProperty envs args = Returned "") as Hret.
    { rewrite (getServiceProperty_loop envs args serviceType serviceName propKey H0 H1 H2).
      by apply bindingsLoop_unmatched. }
    split; [by apply bindingsLoop_unmatched|].
    intros rest. simpl. unfold callDirective.
    rewrite decide_False by discriminate. rewrite decide_False by discriminate.
    rewrite decide_False by discriminate. rewrite decide_True by done.
    rewrite Hret. by destruct (execNodes envs rest).
  - intros before binding after -> Hbefore Hunnamed.
    rewrite bindingsLoop_skip by done. by apply bindingsLoop_unnamed.
Qed.

(** C6.  When the bindings under the service type hold one named as asked,
    [svcprop] with three arguments returns the string at the property key of
    the first such binding, and with four arguments the string at the
    sub-key of the object at the property key of that same binding; the
    bindings after it, of the same name or not, take no part.  The bindings
    before it are objects with string names, as the data model has them. *)
Theorem svcprop_first_match (envs : list string) (serviceType serviceName propKey : string)
    (before after : list any) (svc : gmap string any) :
  default [] (Unmarshal (Getenv envs "VCAP_SERVICES") !! serviceType)
  = (before ++ Map svc :: after)%list ->
  Forall (namedOtherwise serviceName) before ->
  svc !! "name" = Some (Str serviceName) ->
  (forall value, svc !! propKey = Some (Str value) ->
     getServiceProperty envs [serviceType; serviceName; propKey] = Returned value)
  /\ (forall subPropKey nested value,
      svc !! propKey = Some (Map nested) -> nested !! subPropKey = Some (Str value) ->
      getServiceProperty envs [serviceType; serviceName; propKey; subPropKey]
      = Returned value).
Proof.
  intros Hbindings Hbefore Hname. split.
  - intros value Hprop.
    rewrite (getServiceProperty_loop envs _ serviceType serviceName propKey) by done.
    rewrite Hbindings, bindingsLoop_skip by done.
    simpl. unfold at_key. rewrite Hname. simpl. rewrite decide_True by done.
    by rewrite Hprop.
  - intros subPropKey nested value Hprop Hsub.
    rewrite (getServiceProperty_loop envs _ serviceType serviceName propKey) by done.
    rewrite Hbindings, bindingsLoop_skip by done.
    simpl. unfold at_key. rewrite Hname. simpl. rewrite decide_True by done.
    simpl. rewrite Hprop. simpl. by rewrite Hsub.
Qed.

(** C10 (as amended).  [svcprop] with at least three arguments returns the
    empty string, with no failure, when the service-bindings variable is not
    set, is empty, is not a JSON text, or is a JSON text whose top-level
    value is not an object; and also when it is an object in which the entry
    read for the service type (the last one written under that key) is
    missing or is not an array.  Nothing is said here of the other entries
    of such an object: they are stored and found as usual. *)
Theorem undecodable_blob_reads_as_empty (envs args : list string) :
  3 <= List.length args ->
  let blob := Getenv envs "VCAP_SERVICES" in
  (lookupEnv "VCAP_SERVICES" envs = None -> getServiceProperty envs args = Returned "")
  /\ (blob = "" -> getServiceProperty envs args = Returned "")
  /\ (scan blob = None -> getServiceProperty envs args = Returned "")
  /\ (forall v, scan blob = Some v -> (forall members, v <> JObject members) ->
      getServiceProperty envs args = Returned "")
  /\ (forall members serviceType,
      scan blob = Some (JObject members) -> args !! 0 = Some serviceType ->
      (forall elems, lastMember serviceType members <> Some (JArray elems)) ->
      getServiceProperty envs args = Returned "").
Proof.
  intros Hlen blob.
  destruct (args_at_least_three args Hlen) as (t & n & propKey & H0 & H1 & H2).
  assert (forall serviceType, args !! 0 = Some serviceType ->
            default [] (Unmarshal blob !! serviceType) = [] ->
            getServiceProperty envs args = Returned "") as Hempty.
  { intros serviceType H0' Hnil. assert (t = serviceType) as -> by congruence.
    rewrite (getServiceProperty_loop envs args serviceType n propKey H0 H1 H2).
    fold blob. by rewrite Hnil. }
  assert (scan blob = None -> getServiceProperty envs args = Returned "") as Hsyntax.
  { intros Hscan. apply (Hempty t H0). by rewrite Unmarshal_lookup, Hscan. }
  assert (blob = "" -> getServiceProperty envs args = Returned "") as Hblank.
  { intros Hblob. apply Hsyntax. by rewrite Hblob. }
  repeat split.
  - intros Hunset. apply Hblank. by apply Getenv_unset.
  - exact Hblank.
  - exact Hsyntax.
  - intros v Hscan Hshape. apply (Hempty t H0). rewrite Unmarshal_lookup, Hscan.
    destruct v; try done. by destruct (Hshape members).
  - intros members serviceType Hscan H0' Hentry. apply (Hempty serviceType H0').
    rewrite Unmarshal_lookup, Hscan.
    destruct (lastMember serviceType members) as [[| | | |elems|]|]; try done.
    by destruct (Hentry elems).
Qed.

Lemma catalog_db_bindings :
  default [] (Unmarshal (Getenv catalogEnv "VCAP_SERVICES") !! "db")
  = [Map cacheBinding; Map firstBinding; Map secondBinding].
Proof. vm_compute. reflexivity. Qed.

Lemma cacheBinding_named (serviceName : string) :
  serviceName <> "cache" -> namedOtherwise serviceName (Map cacheBinding).
Proof. intros Hne. exists cacheBinding, "cache". split; [reflexivity|split; [reflexivity|congruence]]. Qed.

Lemma firstBinding_named (serviceName : string) :
  serviceName <> "mydb" -> namedOtherwise serviceName (Map firstBinding).
Proof. intros Hne. exists firstBinding, "mydb". split; [reflexivity|split; [reflexivity|congruence]]. Qed.

Lemma secondBinding_named (serviceName : string) :
  serviceName <> "mydb" -> namedOtherwise serviceName (Map secondBinding).
Proof. intros Hne. exists secondBinding, "mydb". split; [reflexivity|split; [reflexivity|congruence]]. Qed.

(** C1, a render that contradicts the claim as stated: the catalog has no
    binding named [nosuch] under [db], the tool exits normally, and the
    directive has left nothing between [upstream ] and [;]. *)
Lemma unmatched_svcprop_renders_nothing :
  (main toolArgs
     (toolWorld catalogEnv (dq "upstream {{svcprop 'db' 'nosuch' 'uri'}};"))).1 = Exit0
  /\ fs (main toolArgs
           (toolWorld catalogEnv (dq "upstream {{svcprop 'db' 'nosuch' 'uri'}};"))).2
       !! "/app/nginx.conf"
     = Some (RegularFile "upstream ;" true).
Proof. split; vm_compute; reflexivity. Qed.

Lemma svcprop_unmatched_returns_empty_witness :
  getServiceProperty catalogEnv ["db"; "nosuch"; "uri"] = Returned ""
  /\ exists p, getServiceProperty ["VCAP_SERVICES=" +:+ dq "{'db':[{'label':'x'}]}"]
                 ["db"; "nosuch"; "uri"] = Panicked p.
Proof.
  split.
  - apply (proj1 (svcprop_unmatched_returns_empty catalogEnv ["db"; "nosuch"; "uri"]
                    "db" "nosuch" (or_introl eq_refl) eq_refl eq_refl)).
    cbv zeta. rewrite catalog_db_bindings.
    repeat constructor;
      [apply cacheBinding_named | apply firstBinding_named | apply secondBinding_named];
      discriminate.
  - apply (proj2 (svcprop_unmatched_returns_empty
                    ["VCAP_SERVICES=" +:+ dq "{'db':[{'label':'x'}]}"]
                    ["db"; "nosuch"; "uri"] "db" "nosuch" (or_introl eq_refl) eq_refl eq_refl)
             [] (Map (<["label" := Str "x"]> ∅)) []).
    + vm_compute. reflexivity.
    + constructor.
    + vm_compute. exact I.
Defined.

Lemma svcprop_first_match_witness :
  getServiceProperty catalogEnv ["db"; "mydb"; "uri"] = Returned "pg://one"
  /\ getServiceProperty catalogEnv ["db"; "mydb"; "creds"; "user"] = Returned "bob".
Proof.
  destruct (svcprop_first_match catalogEnv "db" "mydb" "uri"
              [Map cacheBinding] [Map secondBinding] firstBinding
              catalog_db_bindings
              (Forall_cons_2 _ _ _ (cacheBinding_named "mydb" ltac:(discriminate))
                 (Forall_nil_2 _))
              eq_refl) as [Hthree _].
  destruct (svcprop_first_match catalogEnv "db" "mydb" "creds"
              [Map cacheBinding] [Map secondBinding] firstBinding
              catalog_db_bindings
              (Forall_cons_2 _ _ _ (cacheBinding_named "mydb" ltac:(discriminate))
                 (Forall_nil_2 _))
              eq_refl) as [_ Hfour].
  split.
  - apply Hthree. reflexivity.
  - apply (Hfour "user" (<["user" := Str "bob"]> ∅)); reflexivity.
Defined.

(** C10, a blob that contradicts the claim as stated: [catalogText] is not
    of the expected shape (its [other] entry is a number, which the decoder
    reports as a type mismatch), and yet the catalog is not read as empty. *)
Lemma misshapen_blob_is_still_read :
  option_map expectedShape (scan catalogText) = Some false
  /\ getServiceProperty catalogEnv ["db"; "mydb"; "uri"] = Returned "pg://one".
Proof. split; vm_compute; reflexivity. Qed.

Lemma undecodable_blob_reads_as_empty_witness :
  getServiceProperty ["PORT=8080"] ["db"; "mydb"; "uri"] = Returned ""
  /\ getServiceProperty ["VCAP_SERVICES="] ["db"; "mydb"; "uri"] = Returned ""
  /\ getServiceProperty ["VCAP_SERVICES={oops"] ["db"; "mydb"; "uri"] = Returned ""
  /\ getServiceProperty ["VCAP_SERVICES=[1,2]"] ["db"; "mydb"; "creds"; "user"] = Returned ""
  /\ getServiceProperty catalogEnv ["other"; "mydb"; "uri"] = Returned "".
Proof.
  split; [|split; [|split; [|split]]].
  - apply (proj1 (undecodable_blob_reads_as_empty ["PORT=8080"] ["db"; "mydb"; "uri"]
                    ltac:(simpl; lia))).
    reflexivity.
  - apply (proj1 (proj2 (undecodable_blob_reads_as_empty ["VCAP_SERVICES="]
                           ["db"; "mydb"; "uri"] ltac:(simpl; lia)))).
    reflexivity.
  - apply (proj1 (proj2 (proj2 (undecodable_blob_reads_as_empty ["VCAP_SERVICES={oops"]
                                  ["db"; "mydb"; "uri"] ltac:(simpl; lia))))).
    reflexivity.
  - apply (proj1 (proj2 (proj2 (proj2 (undecodable_blob_reads_as_empty
                                         ["VCAP_SERVICES=[1,2]"]
                                         ["db"; "mydb"; "creds"; "user"]
                                         ltac:(simpl; lia)))))
             (JArray [JNumber "1"; JNumber "2"])); [reflexivity | discriminate].
  - destruct (scan catalogText) as [[| | | | |members]|] eqn:Hscan;
      try (vm_compute in Hscan; discriminate).
    apply (proj2 (proj2 (proj2 (proj2 (undecodable_blob_reads_as_empty catalogEnv
                                         ["other"; "mydb"; "uri"] ltac:(simpl; lia)))))
             members "other"); [exact Hscan | reflexivity |].
    vm_compute in Hscan. injection Hscan as <-. intros elems. vm_compute. discriminate.
Defined.

(** ** The claims about [main] *)

(** C2 (as amended).  When the text of the file is rejected by the parser,
    the tool ends in [log.Fatalf] with the parse error; no directive has been
    evaluated and nothing has been written (the run consists of the read and
    the opening for writing).  By then the file has been opened for writing,
    which truncated it: it is left empty, its former content gone. *)
Theorem parse_failure_leaves_empty_file (argv : list string) (w : World)
    (filename body : string) :
  argv !! 1 = Some filename ->
  fs w !! filename = Some (RegularFile body true) ->
  template_Parse body = ParseError ->
  main argv w
  = (Fatal "Could not parse config file: %s" ParseFailure,
     mkWorld (<[filename := RegularFile "" true]> (fs w)) (environ w)
       (trace w ++ [EvReadFile filename; EvCreate filename])).
Proof.
  intros Hargv Hfile Hparse. unfold main. rewrite Hargv.
  unfold ReadFile, Create. run. rewrite Hfile. cbn [fst snd fs environ trace].
  rewrite Hfile. cbn [fst snd fs environ trace]. rewrite Hparse.
  by rewrite <- app_assoc.
Qed.

(** C2, a run that contradicts the claim as stated: the action is never
    closed, the tool reports the parse error, and the file that held the
    text is empty afterwards. *)
Lemma parse_failure_destroys_content :
  fs (toolWorld catalogEnv "listen {{port") !! "/app/nginx.conf"
  = Some (RegularFile "listen {{port" true)
  /\ (main toolArgs (toolWorld catalogEnv "listen {{port")).1
     = Fatal "Could not parse config file: %s" ParseFailure
  /\ fs (main toolArgs (toolWorld catalogEnv "listen {{port")).2 !! "/app/nginx.conf"
     = Some (RegularFile "" true).
Proof. repeat split; vm_compute; reflexivity. Qed.

Lemma parse_failure_leaves_empty_file_witness :
  main toolArgs (toolWorld catalogEnv "listen {{port")
  = (Fatal "Could not parse config file: %s" ParseFailure,
     mkWorld (<["/app/nginx.conf" := RegularFile "" true]>
                (fs (toolWorld catalogEnv "listen {{port")))
       catalogEnv [EvReadFile "/app/nginx.conf"; EvCreate "/app/nginx.conf"]).
Proof.
  apply (parse_failure_leaves_empty_file toolArgs (toolWorld catalogEnv "listen {{port")
           "/app/nginx.conf" "listen {{port");
    reflexivity.
Defined.

(** The [env] and [port] directives, as functions: the value of the
    variable as it stands, the empty string for a variable that is not
    set. *)
Lemma env_directive_value (envs : list string) (name : string) :
  callDirective envs "env" [name] = CallValue (Getenv envs name)
  /\ (lookupEnv name envs = None -> callDirective envs "env" [name] = CallValue "").
Proof.
  split; [reflexivity|]. intros Hunset. unfold callDirective. simpl.
  by rewrite (Getenv_unset _ _ Hunset).
Qed.

(** A value without any of the seven bytes is written as it stands, and
    only such a value is. *)
Lemma htmlEscaper_plain (s : string) : plain s = true -> htmlEscaper s = s.
Proof.
  induction s as [|c rest IH]; simpl; [done|].
  intros [Hc Hrest]%andb_prop. rewrite (IH Hrest).
  unfold htmlReplacement, htmlSpecial in *.
  destruct (byte_is c 0), (byte_is c 34), (byte_is c 38), (byte_is c 39),
    (byte_is c 43), (byte_is c 60), (byte_is c 62); try discriminate. reflexivity.
Qed.

Lemma rendered_action_plain (envs : list string) (name : string) (rest : list Node) :
  plain (Getenv envs name) = true ->
  execNodes envs (ActionNode "env" [name] :: rest)
  = (Getenv envs name :: (execNodes envs rest).1, (execNodes envs rest).2).
Proof.
  intros Hplain. simpl. unfold callDirective. simpl.
  rewrite (htmlEscaper_plain _ Hplain). by destruct (execNodes envs rest).
Qed.

(** The port example of section 8. *)
Example port_renders_8080 :
  main toolArgs (toolWorld ["PORT=8080"] "server { listen {{port}}; }")
  = (Exit0,
     mkWorld (<["/app/nginx.conf" := RegularFile "server { listen 8080; }" true]> ∅)
       ["PORT=8080"]
       [EvReadFile "/app/nginx.conf"; EvCreate "/app/nginx.conf";
        EvWrite "/app/nginx.conf" "server { listen ";
        EvWrite "/app/nginx.conf" "8080"; EvWrite "/app/nginx.conf" "; }"]).
Proof. vm_compute. reflexivity. Qed.

(** C7, the run on which the code departs from the claim.  The variable
    [GREETING] is [a<b&c]; the [env] directive returns exactly that; the
    text written in its position is [a&lt;b&amp;c], because the template
    belongs to [html/template], which escapes what an action yields. *)
Theorem env_value_is_escaped_in_output :
  Getenv catalogEnv "GREETING" = "a<b&c"
  /\ callDirective catalogEnv "env" ["GREETING"] = CallValue "a<b&c"
  /\ (main toolArgs
        (toolWorld catalogEnv (dq "add_header X-Greeting {{env 'GREETING'}};"))).1
     = Exit0
  /\ fs (main toolArgs
           (toolWorld catalogEnv (dq "add_header X-Greeting {{env 'GREETING'}};"))).2
       !! "/app/nginx.conf"
     = Some (RegularFile "add_header X-Greeting a&lt;b&amp;c;" true).
Proof. repeat split; vm_compute; reflexivity. Qed.

(** C10, a second blob that contradicts the claim as stated: the entry for
    [db] is an array, so the decoder reports nothing, but its element is not
    a binding, and the render does not succeed. *)
Example misshapen_binding_stops_render :
  option_map expectedShape (scan (dq "{'db':[5]}")) = Some false
  /\ (main toolArgs
        (toolWorld ["VCAP_SERVICES=" +:+ dq "{'db':[5]}"]
           (dq "upstream {{svcprop 'db' 'mydb' 'uri'}};"))).1
     = Panic (InterfaceConversion (Number "5") "map[string]interface {}").
Proof. split; vm_compute; reflexivity. Qed.

(** A failure during execution leaves what was written before it: the tool
    has no all-or-nothing mechanism on any path. *)
Example exec_failure_leaves_partial_file :
  (main toolArgs
     (toolWorld catalogEnv (dq "listen {{port}}; set $u {{svcprop 'db' 'mydb' 'creds'}};"))).1
  = Panic (InterfaceConversion (Map (<["user" := Str "bob"]> ∅)) "string")
  /\ fs (main toolArgs
           (toolWorld catalogEnv
              (dq "listen {{port}}; set $u {{svcprop 'db' 'mydb' 'creds'}};"))).2
       !! "/app/nginx.conf"
     = Some (RegularFile "listen 8080; set $u " true).
Proof. split; vm_compute; reflexivity. Qed.

(** * More on version resolution: the listing *)

Lemma sort_Strings_unique (a sorted : list string) :
  Sorted String.le sorted -> sorted ≡ₚ a -> sort_Strings a = sorted.
Proof.
  intros Hsorted Hperm. apply (Sorted_unique String.le).
  - apply Sorted_merge_sort, _.
  - done.
  - unfold sort_Strings. by rewrite merge_sort_Permutation.
Qed.

Lemma sort_Strings_Permutation (a b : list string) :
  a ≡ₚ b -> sort_Strings a = sort_Strings b.
Proof.
  intros Hperm. apply sort_Strings_unique.
  - apply Sorted_merge_sort, _.
  - unfold sort_Strings. by rewrite merge_sort_Permutation.
Qed.

Lemma collectLines_filter (order : list (string * string)) (allNames allSemver : list string) :
  collectLines order allNames allSemver
  = ((allNames ++ (filter named_line order).*1)%list,
     (allSemver ++ (filter named_line order).*2)%list).
Proof.
  revert allNames allSemver. induction order as [|[k v] rest IH]; intros allNames allSemver.
  - simpl. by rewrite !app_nil_r.
  - simpl. destruct (decide (k <> "")) as [Hk|Hk]; rewrite IH.
    + rewrite filter_cons_True by done. simpl. by rewrite <- !app_assoc.
    + by rewrite filter_cons_False by done.
Qed.

Lemma availableVersionsIn_filter (s : Supplier) (order : list (string * string)) :
  availableVersionsIn s order
  = ((sort_Strings (filter named_line order).*1
      ++ sort_Strings (filter named_line order).*2)
     ++ AllDependencyVersions (supplierManifest s) "nginx")%list.
Proof. unfold availableVersionsIn. by rewrite collectLines_filter. Qed.

Lemma named_lines_of_table (lines : gmap string string) (order : list (string * string)) :
  order ≡ₚ map_to_list lines ->
  forall k v, (k, v) ∈ filter named_line order <-> k <> "" /\ lines !! k = Some v.
Proof.
  intros Hperm k v. rewrite list_elem_of_filter, Hperm, elem_of_map_to_list. done.
Qed.

(** X1.  The listing does not depend on the order in which the table is
    traversed: every traversal of the same table gives the same list. *)
Theorem availableVersions_any_order (s : Supplier) (order : list (string * string)) :
  order ≡ₚ map_to_list (VersionLines s) ->
  availableVersionsIn s order = availableVersions s.
Proof.
  intros Hperm. unfold availableVersions. rewrite !availableVersionsIn_filter.
  assert (filter named_line order ≡ₚ filter named_line (map_to_list (VersionLines s)))
    as Hfilter by (by rewrite Hperm).
  f_equal. f_equal; apply sort_Strings_Permutation; by rewrite Hfilter.
Qed.

Lemma availableVersions_any_order_witness :
  availableVersionsIn exampleSupplier (reverse (map_to_list exampleLines))
  = availableVersions exampleSupplier.
Proof.
  apply (availableVersions_any_order exampleSupplier). apply reverse_Permutation.
Defined.

(** X2.  The listing is the aliases in increasing order, then the
    constraints bound to them in increasing order, then the versions of the
    manifest as the manifest gives them.  An alias is listed exactly when it
    is a key of the table other than the empty string, once; a constraint is
    listed for each such key. *)
Theorem availableVersions_contents (s : Supplier) :
  exists names constraints,
    availableVersions s
    = ((names ++ constraints) ++ AllDependencyVersions (supplierManifest s) "nginx")%list
    /\ Sorted String.le names /\ Sorted String.le constraints
    /\ NoDup names
    /\ List.length names = List.length constraints
    /\ (forall k, k ∈ names <-> k <> "" /\ is_Some (VersionLines s !! k))
    /\ (forall v, v ∈ constraints <-> exists k, k <> "" /\ VersionLines s !! k = Some v).
Proof.
  set (kept := filter named_line (map_to_list (VersionLines s))).
  exists (sort_Strings kept.*1), (sort_Strings kept.*2).
  assert (forall k v, (k, v) ∈ kept <-> k <> "" /\ VersionLines s !! k = Some v) as Hkept
    by (by apply named_lines_of_table).
  split; [apply availableVersionsIn_filter|].
  split; [apply Sorted_merge_sort, _|]. split; [apply Sorted_merge_sort, _|].
  unfold sort_Strings. split; [|split; [|split]].
  - rewrite merge_sort_Permutation. apply NoDup_fmap_fst.
    + intros k v1 v2 [_ H1]%Hkept [_ H2]%Hkept. congruence.
    + apply NoDup_filter, NoDup_map_to_list.
  - by rewrite !merge_sort_Permutation, !length_fmap.
  - intros k. rewrite merge_sort_Permutation, list_elem_of_fmap. split.
    + intros ([k' v] & -> & [? ?]%Hkept). simpl. eauto.
    + intros [Hk [v Hv]]. exists (k, v). split; [done|]. by apply Hkept.
  - intros v. rewrite merge_sort_Permutation, list_elem_of_fmap. split.
    + intros ([k v'] & -> & [? ?]%Hkept). simpl. eauto.
    + intros (k & Hk & Hv). exists (k, v). split; [done|]. by apply Hkept.
Qed.

(** X3.  An entry under the empty key is dead: with or without it, every
    request resolves alike, the stable test answers alike, and the listing
    is the same. *)
Theorem empty_line_is_dead `{ConstraintLanguage} (s : Supplier) :
  (forall depName version,
     findMatchingVersion (withoutEmptyLine s) depName version
     = findMatchingVersion s depName version)
  /\ (forall version, isStableLine (withoutEmptyLine s) version = isStableLine s version)
  /\ availableVersions (withoutEmptyLine s) = availableVersions s.
Proof.
  split; [|split].
  - intros depName version. unfold findMatchingVersion, withoutEmptyLine. simpl.
    destruct (decide (version = "")).
    + by rewrite lookup_delete_ne.
    + by rewrite lookup_delete_ne.
  - intros version. unfold isStableLine, withoutEmptyLine. simpl.
    by rewrite lookup_delete_ne.
  - unfold availableVersions. rewrite !availableVersionsIn_filter. simpl.
    assert (filter named_line (map_to_list (delete "" (VersionLines s)))
            ≡ₚ filter named_line (map_to_list (VersionLines s))) as Hsame.
    { apply NoDup_Permutation; try apply NoDup_filter, NoDup_map_to_list.
      intros [k v].
      rewrite (named_lines_of_table (delete "" (VersionLines s)) _ (reflexivity _)).
      rewrite (named_lines_of_table (VersionLines s) _ (reflexivity _)).
      split; intros [Hk Hv]; split; try done.
      - by rewrite lookup_delete_ne in Hv.
      - by rewrite lookup_delete_ne. }
    f_equal. f_equal; apply sort_Strings_Permutation; by rewrite Hsame.
Qed.

(** The listing for the table of the examples, and for the same table with
    an entry under the empty key. *)
Example listing_example :
  availableVersions exampleSupplier
  = ["edge"; "mainline"; "stable"; "1.25.*"; "1.26.*"; "stable";
     "1.25.0"; "1.25.3"; "1.26.1"]
  /\ availableVersions oddSupplier = availableVersions exampleSupplier.
Proof. split; vm_compute; reflexivity. Qed.

(** * More on the validator *)

(** X4.  The existence stage passes exactly when the path of the
    configuration file names something that can be examined, a directory
    included; the port stage passes exactly when it names a regular file
    whose text contains the placeholder.  Neither stage changes a file. *)
Theorem first_stages_pass_iff (s : Supplier) (w : World) :
  let conf := Join [BuildDir (supplierStager s); "nginx.conf"] in
  ((validateNginxConfExists s w).1 = None
   <-> exists n, fs w !! conf = Some n /\ n <> Denied)
  /\ ((validateNginxConfHasPort s w).1 = None
      <-> exists content writable,
            fs w !! conf = Some (RegularFile content writable)
            /\ contains "{{port}}" content = true)
  /\ fs (validateNginxConfExists s w).2 = fs w
  /\ fs (validateNginxConfHasPort s w).2 = fs w.
Proof.
  intros conf.
  unfold validateNginxConfExists, validateNginxConfHasPort, FileExists, ReadFile, matchPort.
  run. fold conf.
  destruct (fs w !! conf) as [[content writable| |]|] eqn:Hnode; run.
  - destruct (contains "{{port}}" content) eqn:Hport; run; repeat split; try done.
    + eauto.
    + eauto.
    + eauto.
    + intros (c & wr & [= <- <-] & Hc). congruence.
  - repeat split; try done.
    + eauto.
    + intros (c & wr & [=] & _).
  - repeat split; try done.
    + intros (n & [= <-] & Hn). done.
    + intros (c & wr & [=] & _).
  - repeat split; try done.
    + intros (n & [=] & _).
    + intros (c & wr & [=] & _).
Qed.

(** X5.  When [nginx.conf] is a directory the validator passes the
    existence stage and stops in the port stage with the error of the read:
    no log line is written and the syntax stage is not reached. *)
Theorem directory_fails_in_port_stage (s : Supplier) (w : World) :
  let conf := Join [BuildDir (supplierStager s); "nginx.conf"] in
  fs w !! conf = Some Directory ->
  validateNginxConf s w
  = (Some (ErrorString ("read " +:+ conf +:+ ": is a directory")),
     mkWorld (fs w) (environ w) (trace w ++ [EvStat conf; EvReadFile conf])).
Proof.
  intros conf Hdir.
  unfold validateNginxConf, validateNginxConfExists, validateNginxConfHasPort,
    FileExists, ReadFile.
  run. fold conf. rewrite Hdir. cbn. rewrite Hdir. cbn. by rewrite <- app_assoc.
Qed.

Lemma directory_fails_in_port_stage_witness :
  validateNginxConf exampleSupplier directoryBuild
  = (Some (ErrorString "read /app/nginx.conf: is a directory"),
     mkWorld (fs directoryBuild) (environ directoryBuild)
       [EvStat "/app/nginx.conf"; EvReadFile "/app/nginx.conf"]).
Proof.
  apply (directory_fails_in_port_stage exampleSupplier directoryBuild). reflexivity.
Defined.

(** X6.  When the temporary directory cannot be made, the syntax stage
    returns that error behind its own prefix and does nothing else: no copy,
    no command, no removal, and the files are as they were. *)
Theorem syntax_stage_without_temp_dir (s : Supplier) (w : World) (err : error) :
  tempSuffix (supplierHost s) (fs w) = inr err ->
  validateNginxConfSyntax s w
  = (Some (Errorf "Error creating temp nginx conf dir: %s" err),
     mkWorld (fs w) (environ w) (trace w ++ [EvTempDir "/tmp" "conf"])).
Proof.
  intros Hfail. unfold validateNginxConfSyntax, TempDir. run. by rewrite Hfail.
Qed.

Lemma syntax_stage_without_temp_dir_witness :
  validateNginxConfSyntax crampedSupplier goodBuild
  = (Some (Errorf "Error creating temp nginx conf dir: %s"
             (ErrorString "mkdir /tmp/conf001: no space left on device")),
     mkWorld (fs goodBuild) (environ goodBuild) [EvTempDir "/tmp" "conf"]).
Proof.
  apply (syntax_stage_without_temp_dir crampedSupplier goodBuild). reflexivity.
Defined.

Lemma TempDir_world (h : Host) (dir pattern tmp : string) (w w1 : World) :
  TempDir h dir pattern w = ((tmp, None), w1) ->
  w1 = mkWorld (<[tmp := Directory]> (fs w)) (environ w) (trace w ++ [EvTempDir dir pattern])
  /\ fs w !! tmp = None.
Proof.
  unfold TempDir. run.
  destruct (tempSuffix h (fs w)) as [suffix|err]; [|discriminate].
  destruct (fs w !! Join [dir; pattern +:+ suffix]) as [n|] eqn:Hfree; [discriminate|].
  by intros [= <- <-].
Qed.

(** X7.  When the render of the copy fails, the syntax stage returns the
    error of the render as it is, without a prefix, and the server's test
    is not started: after the copy and the render there is only the
    removal of the temporary directory.  The renderer is given the copy of
    the file, runs in the temporary directory, and finds [PORT=8080] and the
    modules directory after the variables of the process itself. *)
Theorem render_failure_skips_the_test (s : Supplier) (w w1 : World) (tmpConfDir : string)
    (copied rendered : gmap string node) (e : error) :
  TempDir (supplierHost s) "/tmp" "conf" w = ((tmpConfDir, None), w1) ->
  copyDirectory (supplierHost s) (BuildDir (supplierStager s)) tmpConfDir (fs w1)
  = (None, copied) ->
  Run (supplierCommand s) (renderCommand s (environ w) tmpConfDir) copied
  = (Some e, rendered) ->
  validateNginxConfSyntax s w
  = (Some e,
     mkWorld (filter (fun entry => ~ within tmpConfDir entry.1) rendered) (environ w)
       (trace w ++ [EvTempDir "/tmp" "conf";
                    EvCopyDirectory (BuildDir (supplierStager s)) tmpConfDir;
                    EvRun (renderCommand s (environ w) tmpConfDir);
                    EvRemoveAll tmpConfDir])).
Proof.
  intros Hcreated Hcopy Hrender.
  destruct (TempDir_world _ _ _ _ _ _ Hcreated) as [Hw1 _].
  unfold validateNginxConfSyntax. rewrite (bind_run _ _ _ _ _ Hcreated). cbv beta iota.
  unfold defer, CopyDirectory, commandRun, RemoveAll. run.
  rewrite Hcopy. run. subst w1. cbn [fs environ trace] in *.
  change (mkCmd _ _ tmpConfDir _) with (renderCommand s (environ w) tmpConfDir).
  rewrite Hrender. run. by rewrite <- !app_assoc.
Qed.

Lemma render_failure_skips_the_test_witness :
  validateNginxConfSyntax unrenderedSupplier goodBuild
  = (Some (ErrorString "exit status 2"),
     mkWorld (fs goodBuild) (environ goodBuild)
       [EvTempDir "/tmp" "conf"; EvCopyDirectory "/app" "/tmp/conf001";
        EvRun (mkCmd "/deps/0/bin/varify"
                 ["/deps/0/bin/varify"; "/tmp/conf001/nginx.conf"] "/tmp/conf001"
                 ["HOME=/home/vcap"; "PORT=8080";
                  "NGINX_MODULES=/deps/0/nginx/nginx/modules"]);
        EvRemoveAll "/tmp/conf001"]).
Proof.
  refine (eq_trans (render_failure_skips_the_test unrenderedSupplier goodBuild
                      (mkWorld (<["/tmp/conf001" := Directory]> (fs goodBuild))
                         (environ goodBuild) [EvTempDir "/tmp" "conf"])
                      "/tmp/conf001"
                      (<["/tmp/conf001" := Directory]> (fs goodBuild))
                      (<["/tmp/conf001" := Directory]> (fs goodBuild))
                      (ErrorString "exit status 2") _ _ _) _);
    vm_compute; reflexivity.
Defined.

(** X8.  When the directory drawn is new (nothing exists at or below its
    path) and the copy and the two commands change nothing outside it, the
    syntax stage leaves the files exactly as it found them, whichever way it
    ends. *)
Theorem syntax_stage_restores_files (s : Supplier) (w w1 : World) (tmpConfDir : string) :
  TempDir (supplierHost s) "/tmp" "conf" w = ((tmpConfDir, None), w1) ->
  (forall p, within tmpConfDir p -> fs w !! p = None) ->
  keepsOutside tmpConfDir
    (copyDirectory (supplierHost s) (BuildDir (supplierStager s)) tmpConfDir) ->
  (forall cmd, keepsOutside tmpConfDir (Run (supplierCommand s) cmd)) ->
  (forall program args,
     keepsOutside tmpConfDir (Execute (supplierCommand s) tmpConfDir program args)) ->
  fs (validateNginxConfSyntax s w).2 = fs w.
Proof.
  intros Hcreated Hfresh Hcopy Hrun Hexec.
  destruct (TempDir_world _ _ _ _ _ _ Hcreated) as [Hw1 _].
  unfold validateNginxConfSyntax. rewrite (bind_run _ _ _ _ _ Hcreated). cbv beta iota.
  match goal with
  | |- context [defer (RemoveAll tmpConfDir) ?body w1] =>
      destruct (defer_RemoveAll body tmpConfDir w1) as (Hgone & _ & _);
      assert (forall p, ~ within tmpConfDir p -> fs (body w1).2 !! p = fs w1 !! p) as Hbody;
      [|assert (forall p, ~ within tmpConfDir p ->
                  fs (defer (RemoveAll tmpConfDir) body w1).2 !! p = fs (body w1).2 !! p)
          as Hkeep]
  end.
  - intros p Hout. unfold CopyDirectory, commandRun, commandExecute. run.
    pose proof (Hcopy (fs w1) p Hout) as Hc.
    destruct (copyDirectory _ _ _ (fs w1)) as [[err|] copied]; run; [exact Hc|].
    match goal with |- context [Run ?c ?cmd copied] =>
      pose proof (Hrun cmd copied p Hout) as Hr;
      destruct (Run c cmd copied) as [[err|] rendered] end; run; [congruence|].
    match goal with |- context [Execute ?c ?d ?prog ?args rendered] =>
      pose proof (Hexec prog args rendered p Hout) as He;
      destruct (Execute c d prog args rendered) as [[[err|] stderr] tested] end;
      run; congruence.
  - intros p Hout. unfold defer.
    match goal with |- context [let '(_, _) := ?b w1 in _] => destruct (b w1) as [r w2] end.
    rewrite RemoveAll_spec. cbn [fs snd].
    destruct (fs w2 !! p) as [n|] eqn:Hp.
    + by apply map_lookup_filter_Some_2.
    + apply map_lookup_filter_None. by left.
  - apply map_eq. intros p. destruct (decide (within tmpConfDir p)) as [Hin|Hout].
    + by rewrite Hgone, Hfresh.
    + rewrite Hkeep, Hbody by done. subst w1. cbn [fs].
      apply lookup_insert_ne. intros ->. apply Hout. by left.
Qed.

Lemma syntax_stage_restores_files_witness :
  fs (validateNginxConfSyntax failingSupplier goodBuild).2 = fs goodBuild.
Proof.
  apply (syntax_stage_restores_files failingSupplier goodBuild
           (mkWorld (<["/tmp/conf001" := Directory]> (fs goodBuild))
              (environ goodBuild) [EvTempDir "/tmp" "conf"])
           "/tmp/conf001").
  - vm_compute; reflexivity.
  - intros p Hin. apply eq_None_not_Some. intros [n Hn].
    unfold goodBuild in Hn. cbn [fs] in Hn.
    apply lookup_insert_Some in Hn as [[<- _]|[_ Hn]];
      [|apply lookup_insert_Some in Hn as [[<- _]|[_ Hn]]; [|by rewrite lookup_empty in Hn]];
      (destruct Hin as [Heq|Hpre]; [discriminate Heq | vm_compute in Hpre; discriminate Hpre]).
  - intros files p _. reflexivity.
  - intros cmd files p _. reflexivity.
  - intros program args files p Hout. cbn [failingSupplier supplierCommand failingTest Execute snd].
    apply lookup_insert_ne. intros <-. apply Hout. right. vm_compute; reflexivity.
Defined.

(** * Theorems, part IV: the staging run *)

Ltac stage :=
  unfold mbind, mret, Stage_bind, Stage_ret, note, getSupplier, getConfig, Mkdir, call,
    LoadConfig, LoadVersionLines, setVersionLines in *;
  cbn [supplier config files variables journal fst snd] in *.

Lemma did_FileExists (path : string) (st : Staging) :
  did (FileExists path) st
  = (match files st !! path with
     | None => (false, None)
     | Some Denied => (false, Some (ErrorString ("stat " +:+ path +:+ ": permission denied")))
     | Some _ => (true, None)
     end,
     mkStaging (supplier st) (config st) (files st) (variables st)
       (journal st ++ [Did (EvStat path)])).
Proof.
  unfold did, FileExists. run. by destruct (files st !! path) as [[]|].
Qed.

Lemma stage_bind_run {A B : Type} (m : Stage A) (f : A -> Stage B) (st st1 : Staging) (a : A) :
  m st = (a, st1) -> (m ≫= f) st = f a st1.
Proof. intros Hm. unfold mbind, Stage_bind. by rewrite Hm. Qed.

(** A validation that passes has gone through every step, in this order. *)
Lemma validateNginxConf_passed (s : Supplier) (w w' : World) :
  validateNginxConf s w = (None, w') ->
  exists tmpConfDir,
    environ w' = environ w
    /\ trace w'
       = (trace w ++
          [EvStat (Join [BuildDir (supplierStager s); "nginx.conf"]);
           EvReadFile (Join [BuildDir (supplierStager s); "nginx.conf"]);
           EvTempDir "/tmp" "conf";
           EvCopyDirectory (BuildDir (supplierStager s)) tmpConfDir;
           EvRun (renderCommand s (environ w) tmpConfDir);
           EvExecute tmpConfDir
             (Join [Join [DepDir (supplierStager s); "nginx"; "nginx"; "sbin"]; "nginx"])
             ["-t"; "-c"; Join [tmpConfDir; "nginx.conf"]; "-p"; tmpConfDir];
           EvRemoveAll tmpConfDir])%list.
Proof.
  unfold validateNginxConf, validateNginxConfExists, validateNginxConfHasPort,
    validateNginxConfSyntax, FileExists, ReadFile, matchPort, TempDir, defer,
    CopyDirectory, commandRun, commandExecute, RemoveAll, renderCommand, exec_Command.
  run. intros Hv.
  destruct (fs w !! Join [_; "nginx.conf"]) as [[content writable| |]|] eqn:Hconf;
    cbn in Hv; rewrite ?Hconf in Hv; cbn in Hv; try discriminate.
  destruct (contains "{{port}}" content); cbn in Hv; try discriminate.
  destruct (tempSuffix _ _) as [suffix|e]; cbn in Hv; try discriminate.
  destruct (fs w !! Join ["/tmp"; _]); cbn in Hv; try discriminate.
  destruct (copyDirectory _ _ _ _) as [[e|] copied]; cbn in Hv; try discriminate.
  destruct (Run _ _ _) as [[e|] rendered]; cbn in Hv; try discriminate.
  destruct (Execute _ _ _ _ _) as [[[e|] stderr] tested]; cbn in Hv; try discriminate.
  injection Hv as <-. eexists. split; [reflexivity|].
  cbn [trace]. rewrite <- !app_assoc. reflexivity.
Qed.

Lemma orLog_run (step : Stage (option error)) (format : string)
    (rest : Stage (option error)) (st : Staging) :
  Supply.orLog step format rest st
  = match step st with
    | (Some e, st1) =>
        (Some e, mkStaging (supplier st1) (config st1) (files st1) (variables st1)
                   (journal st1 ++ [LogError format e]))
    | (None, st1) => rest st1
    end.
Proof. unfold Supply.orLog. stage. by destruct (step st) as [[e|] st1]. Qed.

Section StagingFacts.
Context `{ConstraintLanguage}.
Variable p : Platform.

(** X9.  [Setup] cannot succeed over a build directory that has a [logs]
    entry already, of whatever kind: it returns an error and leaves the
    files as they were. *)
Theorem Setup_fails_over_logs (st : Staging) (n : node) :
  files st !! Join [BuildDir (supplierStager (supplier st)); "logs"] = Some n ->
  (exists e, (Supply.Setup p st).1 = Some e)
  /\ files (Supply.Setup p st).2 = files st.
Proof.
  intros Hlogs. unfold Supply.Setup.
  rewrite (stage_bind_run _ _ st st (supplier st)) by done.
  rewrite (stage_bind_run _ _ _ _ _ (did_FileExists _ st)).
  destruct (files st !! Join [_; "buildpack.yml"]) as [[content writable| |]|] eqn:Hyml; stage;
    try (destruct (loadConfig p _ _ _) as [[e|] c]; stage);
    try (destruct (loadVersionLines p _ _) as [lines|e]; stage; try rewrite Hlogs);
    eauto.
Qed.


(** X10.  When [Setup] succeeds there was no [logs] entry and there is a
    [logs] directory now, with no other change to the files; the table of
    the supplier is the one loaded from the manifest of the buildpack; the
    collaborators of the supplier are the same; and without a
    [buildpack.yml] the configuration is as it was. *)
Theorem Setup_success (st : Staging) :
  (Supply.Setup p st).1 = None ->
  let s := supplier st in
  let st' := (Supply.Setup p st).2 in
  let logs := Join [BuildDir (supplierStager s); "logs"] in
  files st !! logs = None
  /\ files st' = <[logs := Directory]> (files st)
  /\ loadVersionLines p (Join [RootDir (supplierManifest s); "manifest.yml"]) (files st)
     = inl (VersionLines (supplier st'))
  /\ (files st !! Join [BuildDir (supplierStager s); "buildpack.yml"] = None ->
      config st' = config st).
Proof.
  unfold Supply.Setup.
  rewrite (stage_bind_run _ _ st st (supplier st)) by done.
  rewrite (stage_bind_run _ _ _ _ _ (did_FileExists _ st)).
  destruct (files st !! Join [_; "buildpack.yml"]) as [[content writable| |]|] eqn:Hyml; stage;
    try discriminate;
    try (destruct (loadConfig p _ _ _) as [[e|] c]; stage; try discriminate);
    (destruct (loadVersionLines p _ _) as [lines|e]; stage; [|discriminate]);
    (destruct (files st !! Join [_; "logs"]) eqn:Hlogs; stage; [discriminate|]);
    done.
Qed.

Lemma Setup_frame (st : Staging) :
  let st' := (Supply.Setup p st).2 in
  supplierStager (supplier st') = supplierStager (supplier st)
  /\ supplierManifest (supplier st') = supplierManifest (supplier st)
  /\ supplierCommand (supplier st') = supplierCommand (supplier st)
  /\ supplierHost (supplier st') = supplierHost (supplier st)
  /\ variables st' = variables st
  /\ exists added : list entry, journal st' = (journal st ++ added)%list
                   /\ Forall (fun e => errorLine e = false) added.
Proof.
  unfold Supply.Setup.
  rewrite (stage_bind_run _ _ st st (supplier st)) by done.
  rewrite (stage_bind_run _ _ _ _ _ (did_FileExists _ st)).
  destruct (files st !! Join [_; "buildpack.yml"]) as [[content writable| |]|] eqn:Hyml; stage;
    try (destruct (loadConfig p _ _ _) as [[e|] c]; stage);
    try (destruct (loadVersionLines p _ _) as [lines|e]; stage);
    try (destruct (files st !! Join [_; "logs"]) eqn:Hlogs; stage);
    repeat split; try done;
    rewrite <- ?app_assoc; eexists; (split; [reflexivity|]);
    repeat constructor.
Qed.

Lemma InstallVarify_frame (st : Staging) :
  let st' := (Supply.InstallVarify p st).2 in
  supplier st' = supplier st /\ config st' = config st /\ variables st' = variables st
  /\ exists added : list entry, journal st' = (journal st ++ added)%list
                   /\ Forall (fun e => errorLine e = false) added.
Proof.
  unfold Supply.InstallVarify.
  rewrite (stage_bind_run _ _ st st (supplier st)) by done.
  rewrite (stage_bind_run _ _ _ _ _ (did_FileExists _ st)).
  destruct (files st !! Join [_; _; "varify"]) as [[content writable| |]|] eqn:Hvarify; stage;
    try (destruct (copyFile p _ _ _) as [r copied]; stage);
    repeat split; try done;
    rewrite <- ?app_assoc; eexists; (split; [reflexivity|]);
    repeat constructor.
Qed.

(** [InstallNginx], step by step. *)
Lemma InstallNginx_run (st : Staging) :
  let s := supplier st in
  let v := nginxVersion (Nginx (config st)) in
  let dir := Join [DepDir (supplierStager s); "nginx"] in
  let link := Join [dir; "nginx"; "sbin"; "nginx"] in
  Supply.InstallNginx p st
  = match findMatchingVersion s "nginx" v with
    | (_, Some e) =>
        (Some (Errorf "Could not determine version: %s" e),
         mkStaging s (config st) (files st) (variables st)
           (journal st ++ [LogInfo ("Available versions: " +:+
                                    String.concat ", " (availableVersions s))]))
    | (dep, None) =>
        let heading :=
          ([if decide (v = "") then
              LogBeginStep "No nginx version specified - using mainline => %s" [Version dep]
            else LogBeginStep "Requested nginx version: %s => %s" [v; Version dep]]
           ++ (if isStableLine s (Version dep) then [LogWarning stableWarning] else []))%list in
        match installDependency p dep dir (files st) with
        | (Some e, files1) =>
            (Some e, mkStaging s (config st) files1 (variables st)
                       (journal st ++ heading ++ [OnInstallDependency dep dir]))
        | (None, files1) =>
            ((addBinDependencyLink p link "nginx" files1).1,
             mkStaging s (config st) (addBinDependencyLink p link "nginx" files1).2
               (variables st)
               (journal st ++ heading ++ [OnInstallDependency dep dir;
                                          OnAddBinDependencyLink link "nginx"]))
        end
    end.
Proof.
  intros s v dir link. unfold Supply.InstallNginx. stage. fold s v dir link.
  destruct (findMatchingVersion s "nginx" v) as [dep [e|]]; stage; [done|].
  destruct (decide (v = "")), (isStableLine s (Version dep)); stage;
    destruct (installDependency p dep dir (files st)) as [[e1|] files1]; stage;
    try destruct (addBinDependencyLink p link "nginx" files1) as [r files2];
    cbn [fst snd app]; rewrite <- ?app_assoc; reflexivity.
Qed.

(** X11.  [InstallVarify] copies the renderer exactly when nothing exists at
    its destination.  Over a destination that is there already it succeeds
    without touching a file; over one that cannot be examined it fails,
    again without touching a file. *)
Theorem InstallVarify_copies_only_when_absent (st : Staging) :
  let s := supplier st in
  let source := Join [RootDir (supplierManifest s); "bin"; "varify"] in
  let destination := Join [DepDir (supplierStager s); "bin"; "varify"] in
  exists added : list entry,
    journal (Supply.InstallVarify p st).2 = (journal st ++ added)%list
    /\ (OnCopyFile source destination ∈ added <-> files st !! destination = None)
    /\ (forall n, files st !! destination = Some n ->
          files (Supply.InstallVarify p st).2 = files st
          /\ ((Supply.InstallVarify p st).1 = None <-> n <> Denied))
    /\ (files st !! destination = None ->
        ((Supply.InstallVarify p st).1, files (Supply.InstallVarify p st).2)
        = copyFile p source destination (files st)).
Proof.
  intros s source destination. unfold Supply.InstallVarify.
  rewrite (stage_bind_run _ _ st st (supplier st)) by done.
  rewrite (stage_bind_run _ _ _ _ _ (did_FileExists _ st)).
  fold s source destination.
  destruct (files st !! destination) as [[content writable| |]|] eqn:Hvarify; stage;
    try (destruct (copyFile p _ _ _) as [r copied]; stage);
    (eexists; split; [rewrite <- ?app_assoc; reflexivity|]);
    (split; [split; [intros Hin|intros [=]]|split; [intros n [= <-]|intros [=]]]);
    try (repeat (apply elem_of_cons in Hin as [Hin|Hin]; [discriminate Hin|]);
         by apply elem_of_nil in Hin);
    try (split; [done|]; split; [done|intros _; done]).
  - split; [done|]. split; [discriminate|intros Hd; by destruct Hd].
  - done.
  - right. left.
  - done.
Qed.

(** X12.  Whatever [InstallNginx] hands to the installer is the dependency
    that [findMatchingVersion] returned for the version of the
    configuration: it is called [nginx], its version is one the manifest
    lists and satisfies the effective constraint, and it goes to the
    [nginx] directory of the dependency directory.  When [InstallNginx]
    succeeds the installer was called. *)
Theorem only_resolved_versions_are_installed (st : Staging) :
  let s := supplier st in
  let v := nginxVersion (Nginx (config st)) in
  exists added : list entry,
    journal (Supply.InstallNginx p st).2 = (journal st ++ added)%list
    /\ (forall dep dir, OnInstallDependency dep dir ∈ added ->
          findMatchingVersion s "nginx" v = (dep, None)
          /\ dir = Join [DepDir (supplierStager s); "nginx"]
          /\ Name dep = "nginx"
          /\ Version dep ∈ AllDependencyVersions (supplierManifest s) "nginx"
          /\ exists c, effectiveConstraint (VersionLines s) v = Some c
                       /\ satisfies c (Version dep) = true)
    /\ ((Supply.InstallNginx p st).1 = None ->
        exists dep, OnInstallDependency dep (Join [DepDir (supplierStager s); "nginx"])
                    ∈ added).
Proof.
  intros s v. rewrite InstallNginx_run. fold s v.
  destruct (findMatchingVersion s "nginx" v) as [dep [e|]] eqn:Hfind.
  - eexists. split; [reflexivity|]. split; [|discriminate].
    intros dep' dir Hin. apply list_elem_of_singleton in Hin. discriminate.
  - assert (forall dep' dir (heading tail : list entry),
              Forall (fun e => forall d o, e <> OnInstallDependency d o) heading ->
              Forall (fun e => forall d o, e <> OnInstallDependency d o) tail ->
              OnInstallDependency dep' dir
              ∈ (heading ++ OnInstallDependency dep
                              (Join [DepDir (supplierStager s); "nginx"]) :: tail)%list ->
              dep' = dep /\ dir = Join [DepDir (supplierStager s); "nginx"]) as Honly.
    { intros dep' dir heading tail Hheading Htail Hin.
      apply elem_of_app in Hin as [Hin|Hin].
      - rewrite Forall_forall in Hheading. by destruct (Hheading _ Hin dep' dir).
      - apply elem_of_cons in Hin as [[= -> ->]|Hin]; [done|].
        rewrite Forall_forall in Htail. by destruct (Htail _ Hin dep' dir). }
    assert (Name dep = "nginx"
            /\ Version dep ∈ AllDependencyVersions (supplierManifest s) "nginx"
            /\ exists c, effectiveConstraint (VersionLines s) v = Some c
                         /\ satisfies c (Version dep) = true) as Hdep.
    { rewrite findMatchingVersion_effective in Hfind.
      destruct (effectiveConstraint _ _) as [c|]; [|discriminate].
      apply matchAvailable_found in Hfind as (? & ? & ?). eauto. }
    cbv zeta.
    set (heading := ([if decide (v = "") then _ else _] ++ _)%list).
    assert (Forall (fun e => forall d o, e <> OnInstallDependency d o) heading) as Hheading.
    { subst heading. destruct (decide (v = "")), (isStableLine s (Version dep));
        repeat constructor; discriminate. }
    destruct (installDependency p dep _ (files st)) as [[e|] files1]; cbn [fst snd journal];
      (eexists; split; [reflexivity|]; split;
       [intros dep' dir Hin;
        eapply Honly in Hin;
        [destruct Hin as [-> ->]; tauto | exact Hheading | repeat constructor; discriminate]|]).
    + discriminate.
    + intros _. exists dep. apply elem_of_app. right. left.
Qed.

(** X13.  The warning about stable versions is logged exactly when a version
    was resolved and that version is on the stable line, whether it was
    asked for under that name or not. *)
Theorem stable_version_is_warned_about (st : Staging) :
  let s := supplier st in
  let v := nginxVersion (Nginx (config st)) in
  exists added : list entry,
    journal (Supply.InstallNginx p st).2 = (journal st ++ added)%list
    /\ (LogWarning stableWarning ∈ added
        <-> exists dep, findMatchingVersion s "nginx" v = (dep, None)
                        /\ isStableLine s (Version dep) = true).
Proof.
  intros s v. rewrite InstallNginx_run. fold s v.
  destruct (findMatchingVersion s "nginx" v) as [dep [e|]] eqn:Hfind.
  - eexists. split; [reflexivity|]. split.
    + intros Hin. apply list_elem_of_singleton in Hin. discriminate.
    + intros (dep' & [=] & _).
  - cbv zeta.
    destruct (installDependency p dep _ (files st)) as [[e|] files1]; cbn [fst snd journal];
      (eexists; split; [reflexivity|]);
      destruct (isStableLine s (Version dep)) eqn:Hstable;
      (split;
       [intros Hin; try (exists dep; split; [reflexivity|assumption]);
        destruct (decide (v = ""));
        repeat (apply elem_of_cons in Hin as [Hin|Hin]; [discriminate Hin|]);
        by apply elem_of_nil in Hin
       |intros (dep' & [= <-] & Hst); try congruence;
        apply elem_of_app; left; apply elem_of_app; right; left]).
Qed.

Lemma orLog_reporting (formats : list string) (step rest : Stage (option error))
    (format : string) :
  format ∈ formats -> quietly step -> reporting formats rest ->
  reporting formats (Supply.orLog step format rest).
Proof.
  intros Hformat Hstep Hrest st. rewrite orLog_run.
  destruct (Hstep st) as (a1 & Hj1 & Hc1).
  destruct (step st) as [[e|] st1]; cbn [fst snd journal] in *.
  - exists (a1 ++ [LogError format e])%list. rewrite Hj1, app_assoc. split; [done|].
    by exists format, a1.
  - destruct (Hrest st1) as (a2 & Hj2 & Hr2). exists (a1 ++ a2)%list.
    rewrite Hj2, Hj1, app_assoc. split; [done|].
    destruct ((rest st1).1) as [e|].
    + destruct Hr2 as (f & before & -> & Hf). exists f, (a1 ++ before)%list.
      by rewrite app_assoc.
    + apply Forall_app. auto.
Qed.

Lemma InstallNginx_quietly : quietly (Supply.InstallNginx p).
Proof.
  intros st. rewrite InstallNginx_run.
  destruct (findMatchingVersion _ _ _) as [dep [e|]].
  - eexists. split; [reflexivity|]. intros _. by repeat constructor.
  - cbv zeta. destruct (installDependency p dep _ _) as [[e|] files1]; cbn [fst snd journal];
      (eexists; split; [reflexivity|]); intros _;
      destruct (decide (_ = "")), (isStableLine _ _); by repeat constructor.
Qed.

Lemma validateNginxConf_quietly :
  quietly (s ← getSupplier; did (validateNginxConf s)).
Proof.
  intros st. unfold did. stage.
  destruct (validateNginxConf _ _) as [r w'] eqn:Hv. cbn [fst snd journal].
  eexists. split; [reflexivity|]. intros ->.
  apply validateNginxConf_passed in Hv as (tmpConfDir & _ & ->).
  by repeat constructor.
Qed.

Lemma Run_unfold (st : Staging) :
  Supply.Run p st
  = Supply.orLog (Supply.InstallVarify p) "Failed to copy verify: %s" (
    Supply.orLog (Supply.Setup p) "Could not setup: %s" (
    Supply.orLog (Supply.InstallNginx p) "Could not install nginx: %s" (
    Supply.orLog (s ← getSupplier; did (validateNginxConf s))
      "Could not validate nginx.conf: %s" (
    Supply.orLog (Supply.WriteProfileD p) "Could not write profile.d: %s" (
    mret None)))))
    (mkStaging (supplier st) (config st) (files st) (variables st)
       (journal st ++ [LogBeginStep "Supplying nginx" []])).
Proof. reflexivity. Qed.

(** X14.  A run that fails ends by logging, under one of its five headings,
    the error it returns; a run that succeeds has logged no error, neither
    in [Run] nor in the validator. *)
Theorem Run_reports_its_failure (st : Staging) :
  exists added : list entry,
    journal (Supply.Run p st).2 = (journal st ++ added)%list
    /\ match (Supply.Run p st).1 with
       | Some e => exists format before,
                     added = (before ++ [LogError format e])%list
                     /\ format ∈ runFormats
       | None => Forall (fun e => errorLine e = false) added
       end.
Proof.
  assert (reporting runFormats
            (Supply.orLog (Supply.InstallVarify p) "Failed to copy verify: %s" (
             Supply.orLog (Supply.Setup p) "Could not setup: %s" (
             Supply.orLog (Supply.InstallNginx p) "Could not install nginx: %s" (
             Supply.orLog (s ← getSupplier; did (validateNginxConf s))
               "Could not validate nginx.conf: %s" (
             Supply.orLog (Supply.WriteProfileD p) "Could not write profile.d: %s" (
             mret None))))))) as Hchain.
  { repeat (apply orLog_reporting; [unfold runFormats; set_solver| |]).
    - intros st'. destruct (InstallVarify_frame st') as (_ & _ & _ & added & Hj & Hcalm).
      exists added. auto.
    - intros st'. destruct (Setup_frame st') as (_ & _ & _ & _ & _ & added & Hj & Hcalm).
      exists added. auto.
    - apply InstallNginx_quietly.
    - apply validateNginxConf_quietly.
    - intros st'. unfold Supply.WriteProfileD. stage.
      destruct (writeProfileD p _ _ _) as [r files1]. cbn [fst snd journal].
      eexists. split; [reflexivity|]. intros _. by repeat constructor.
    - intros st'. exists []. rewrite app_nil_r. split; [done|]. constructor. }
  rewrite Run_unfold.
  destruct (Hchain (mkStaging (supplier st) (config st) (files st) (variables st)
                      (journal st ++ [LogBeginStep "Supplying nginx" []])))
    as (added & Hj & Hr).
  cbn [journal] in Hj. exists (LogBeginStep "Supplying nginx" [] :: added).
  split; [by rewrite Hj, <- app_assoc|].
  destruct (fst (Supply.orLog _ _ _ _)) as [e|].
  - destruct Hr as (f & before & -> & Hf).
    by exists f, (LogBeginStep "Supplying nginx" [] :: before).
  - by constructor.
Qed.

(** X15.  A run that succeeds has installed a version that the manifest
    lists, linked its binary, passed the copy of the configuration through
    the syntax test of that server, removed the temporary directory, and
    written the profile script, in this order. *)
Theorem successful_run_has_tested (st : Staging) :
  (Supply.Run p st).1 = None ->
  let s := supplier st in
  let depDir := DepDir (supplierStager s) in
  exists (dep : Dependency) (tmpConfDir : string) (added : list entry),
    journal (Supply.Run p st).2 = (journal st ++ added)%list
    /\ Version dep ∈ AllDependencyVersions (supplierManifest s) "nginx"
    /\ [OnInstallDependency dep (Join [depDir; "nginx"]);
        OnAddBinDependencyLink (Join [Join [depDir; "nginx"]; "nginx"; "sbin"; "nginx"])
          "nginx";
        Did (EvExecute tmpConfDir
               (Join [Join [depDir; "nginx"; "nginx"; "sbin"]; "nginx"])
               ["-t"; "-c"; Join [tmpConfDir; "nginx.conf"]; "-p"; tmpConfDir]);
        Did (EvRemoveAll tmpConfDir);
        OnWriteProfileD "nginx" (profileScript s)]
       `sublist_of` added.
Proof.
  intros Hok s depDir. rewrite Run_unfold in *.
  set (st0 := mkStaging _ _ _ _ _) in *.
  rewrite orLog_run in *.
  destruct (InstallVarify_frame st0) as (Hs1 & _ & _ & a1 & Hj1 & _).
  destruct (Supply.InstallVarify p st0) as [[e|] st1]; [discriminate|].
  cbn [snd] in *.
  rewrite orLog_run in *.
  destruct (Setup_frame st1) as (Hstager & Hmanifest & _ & _ & _ & a2 & Hj2 & _).
  destruct (Supply.Setup p st1) as [[e|] st2]; [discriminate|].
  cbn [snd] in *.
  rewrite orLog_run in *.
  pose proof (InstallNginx_run st2) as Hinstall. cbv zeta in Hinstall.
  destruct (findMatchingVersion _ _ _) as [dep [e|]] eqn:Hfind;
    [rewrite Hinstall in Hok; discriminate|].
  set (heading := ([if decide (_ = "") then _ else _] ++ _)%list) in Hinstall.
  destruct (installDependency p dep _ _) as [[e|] files1];
    [rewrite Hinstall in Hok; discriminate|].
  rewrite Hinstall in *. clear Hinstall.
  destruct ((addBinDependencyLink p _ _ _).1) as [e|]; [discriminate|].
  rewrite orLog_run in *. unfold did in *. stage.
  destruct (validateNginxConf _ _) as [[e|] w'] eqn:Hv; [discriminate|].
  apply validateNginxConf_passed in Hv as (tmpConfDir & _ & Htrace).
  cbn [trace app] in Htrace.
  rewrite orLog_run in *. unfold Supply.WriteProfileD in *. stage.
  destruct (writeProfileD p _ _ _) as [[e|] files2]; [discriminate|].
  cbn [fst snd journal] in *.
  assert (supplierStager (supplier st2) = supplierStager s) as Hg
    by (rewrite Hstager, Hs1; reflexivity).
  assert (supplierManifest (supplier st2) = supplierManifest s) as Hm
    by (rewrite Hmanifest, Hs1; reflexivity).
  exists dep, tmpConfDir. eexists. split.
  { rewrite Hj2, Hj1. subst st0. cbn [journal]. rewrite <- !app_assoc. reflexivity. }
  split.
  { rewrite findMatchingVersion_effective in Hfind.
    destruct (effectiveConstraint _ _) as [c|]; [|discriminate].
    apply matchAvailable_found in Hfind as (_ & Hin & _). by rewrite <- Hm. }
  rewrite Htrace, Hg. subst depDir. unfold profileScript. cbn [map app].
  apply sublist_cons. do 3 apply sublist_inserts_l.
  do 2 apply sublist_skip. do 5 apply sublist_cons. do 3 apply sublist_skip.
  apply sublist_nil.
Qed.

End StagingFacts.

Lemma Setup_fails_over_logs_witness :
  (exists e, (Supply.Setup examplePlatform (staging loggedBuild)).1 = Some e)
  /\ files (Supply.Setup examplePlatform (staging loggedBuild)).2
     = files (staging loggedBuild).
Proof.
  apply (Setup_fails_over_logs examplePlatform (staging loggedBuild) Directory).
  vm_compute; reflexivity.
Defined.

Lemma Setup_success_witness :
  files (Supply.Setup examplePlatform (staging goodBuild)).2
  = <["/app/logs" := Directory]> (fs goodBuild)
  /\ VersionLines (supplier (Supply.Setup examplePlatform (staging goodBuild)).2)
     = exampleLines.
Proof.
  destruct (Setup_success examplePlatform (staging goodBuild)
              ltac:(vm_compute; reflexivity)) as (_ & Hfiles & _ & _).
  split; [exact Hfiles | vm_compute; reflexivity].
Defined.

Lemma successful_run_has_tested_witness :
  exists (dep : Dependency) (tmpConfDir : string) (added : list entry),
    journal (@Supply.Run Wildcard.language examplePlatform (staging goodBuild)).2 = added
    /\ Version dep ∈ ["1.25.0"; "1.25.3"; "1.26.1"]
    /\ [OnInstallDependency dep "/deps/0/nginx";
        OnAddBinDependencyLink "/deps/0/nginx/nginx/sbin/nginx" "nginx";
        Did (EvExecute tmpConfDir "/deps/0/nginx/nginx/sbin/nginx"
               ["-t"; "-c"; Join [tmpConfDir; "nginx.conf"]; "-p"; tmpConfDir]);
        Did (EvRemoveAll tmpConfDir);
        OnWriteProfileD "nginx"
          ("export NGINX_MODULES=$DEPS_DIR/0/nginx/nginx/modules" +:+ newline +:+
           "mkdir -p logs")]
       `sublist_of` added.
Proof.
  exact (@successful_run_has_tested Wildcard.language examplePlatform (staging goodBuild)
           ltac:(vm_compute; reflexivity)).
Defined.

(** Three runs of a new supplier: over a build directory that passes, over
    one that has a [logs] directory, and over one whose configuration never
    mentions the port.  The server is installed before the configuration is
    looked at. *)
Example run_passes :
  let r := @Supply.Run Wildcard.language examplePlatform (staging goodBuild) in
  r.1 = None
  /\ journal r.2
     = [LogBeginStep "Supplying nginx" [];
        Did (EvStat "/deps/0/bin/varify");
        OnCopyFile "/buildpack/bin/varify" "/deps/0/bin/varify";
        Did (EvStat "/app/buildpack.yml"); OnLoad "/buildpack/manifest.yml";
        OnMkdir "/app/logs";
        LogBeginStep "No nginx version specified - using mainline => %s" ["1.25.3"];
        OnInstallDependency (mkDependency "nginx" "1.25.3") "/deps/0/nginx";
        OnAddBinDependencyLink "/deps/0/nginx/nginx/sbin/nginx" "nginx";
        Did (EvStat "/app/nginx.conf"); Did (EvReadFile "/app/nginx.conf");
        Did (EvTempDir "/tmp" "conf");
        Did (EvCopyDirectory "/app" "/tmp/conf001");
        Did (EvRun (mkCmd "/deps/0/bin/varify"
                      ["/deps/0/bin/varify"; "/tmp/conf001/nginx.conf"] "/tmp/conf001"
                      ["HOME=/home/vcap"; "PORT=8080";
                       "NGINX_MODULES=/deps/0/nginx/nginx/modules"]));
        Did (EvExecute "/tmp/conf001" "/deps/0/nginx/nginx/sbin/nginx"
               ["-t"; "-c"; "/tmp/conf001/nginx.conf"; "-p"; "/tmp/conf001"]);
        Did (EvRemoveAll "/tmp/conf001");
        OnWriteProfileD "nginx"
          ("export NGINX_MODULES=$DEPS_DIR/0/nginx/nginx/modules" +:+ newline +:+
           "mkdir -p logs")]
  /\ files r.2 = <["/app/logs" := Directory]> (fs goodBuild).
Proof. cbv zeta. split; [|split]; vm_compute; reflexivity. Qed.

Example run_over_logs :
  let r := @Supply.Run Wildcard.language examplePlatform (staging loggedBuild) in
  r.1 = Some (Errorf "Could not create 'logs' directory: %v"
                (ErrorString "mkdir /app/logs: file exists"))
  /\ last (journal r.2)
     = Some (LogError "Could not setup: %s"
               (Errorf "Could not create 'logs' directory: %v"
                  (ErrorString "mkdir /app/logs: file exists"))).
Proof. cbv zeta. split; vm_compute; reflexivity. Qed.

Example run_without_port :
  let r := @Supply.Run Wildcard.language examplePlatform (staging portlessBuild) in
  r.1 = Some (ErrorString "no {{port}} in nginx.conf")
  /\ OnInstallDependency (mkDependency "nginx" "1.25.3") "/deps/0/nginx" ∈ journal r.2
  /\ last (journal r.2)
     = Some (LogError "Could not validate nginx.conf: %s"
               (ErrorString "no {{port}} in nginx.conf")).
Proof.
  cbv zeta. split; [|split]; [vm_compute; reflexivity| |vm_compute; reflexivity].
  vm_compute. do 7 right. left.
Qed.

(** * More on the rendering tool *)

(** ** More on [getServiceProperty] *)

(** X16.  With fewer than three arguments [getServiceProperty] panics on the
    first index expression that is out of range, before the catalog is
    decoded: the index that fails is the number of arguments given. *)
Theorem getServiceProperty_too_few_args (envs args : list string) :
  List.length args < 3 ->
  getServiceProperty envs args
  = Panicked (IndexOutOfRange (List.length args) (List.length args)).
Proof.
  destruct args as [|a0 [|a1 [|a2 rest]]]; simpl; intros Hlen; try reflexivity. lia.
Qed.

Lemma getServiceProperty_too_few_args_witness :
  getServiceProperty catalogEnv ["db"; "mydb"] = Panicked (IndexOutOfRange 2 2).
Proof. apply (getServiceProperty_too_few_args catalogEnv ["db"; "mydb"]). simpl. lia. Defined.

Lemma bindingsLoop_surplus (args : list string) (serviceName propKey : string)
    (bindings : list any) :
  5 <= List.length args -> Forall named bindings ->
  bindingsLoop args serviceName propKey bindings = Returned "".
Proof.
  intros Hlen. induction 1 as [|binding rest (svc & name & -> & Hname) _ IH]; [done|].
  simpl. unfold at_key. rewrite Hname. simpl.
  rewrite (decide_False (P := List.length args = 3)) by lia.
  rewrite (decide_False (P := List.length args = 4)) by lia.
  rewrite IH. by destruct (decide (serviceName = name)).
Qed.

(** X17.  With five or more arguments [getServiceProperty] never returns a
    property: over bindings that are objects with string names it returns
    the empty string, whether or not one of them has the name asked for. *)
Theorem getServiceProperty_surplus_args (envs args : list string) (serviceType : string) :
  5 <= List.length args ->
  args !! 0 = Some serviceType ->
  Forall named (default [] (Unmarshal (Getenv envs "VCAP_SERVICES") !! serviceType)) ->
  getServiceProperty envs args = Returned "".
Proof.
  intros Hlen H0 Hall.
  destruct (args_at_least_three args) as (t & n & propKey & H0' & H1 & H2); [lia|].
  assert (t = serviceType) as -> by congruence.
  rewrite (getServiceProperty_loop envs args serviceType n propKey H0 H1 H2).
  by apply bindingsLoop_surplus.
Qed.

Lemma namedOtherwise_named (serviceName : string) (binding : any) :
  namedOtherwise serviceName binding -> named binding.
Proof. intros (svc & name & ? & ? & _). by exists svc, name. Qed.

Lemma getServiceProperty_surplus_args_witness :
  getServiceProperty catalogEnv ["db"; "mydb"; "uri"; "a"; "b"] = Returned "".
Proof.
  apply (getServiceProperty_surplus_args catalogEnv ["db"; "mydb"; "uri"; "a"; "b"] "db");
    [simpl; lia | reflexivity |].
  rewrite catalog_db_bindings.
  repeat constructor; apply (namedOtherwise_named "nosuch");
    [apply cacheBinding_named | apply firstBinding_named | apply secondBinding_named];
    discriminate.
Defined.

Lemma at_key_Some (m : gmap string any) (key : string) (v : any) :
  m !! key = Some v -> at_key m key = v.
Proof. unfold at_key. by intros ->. Qed.

(** X18.  Once a binding of the name asked for is found, the property must
    have the shape the number of arguments calls for, or the call panics:
    with three arguments a property that is absent or not a string, with
    four a property that is not an object or a sub-key that is absent or not
    a string.  No later binding of the same name is tried. *)
Theorem getServiceProperty_wrong_shape (envs : list string)
    (serviceType serviceName propKey : string) (before after : list any)
    (svc : gmap string any) :
  default [] (Unmarshal (Getenv envs "VCAP_SERVICES") !! serviceType)
  = (before ++ Map svc :: after)%list ->
  Forall (namedOtherwise serviceName) before ->
  svc !! "name" = Some (Str serviceName) ->
  ((forall value, svc !! propKey <> Some (Str value)) ->
   getServiceProperty envs [serviceType; serviceName; propKey]
   = Panicked (InterfaceConversion (at_key svc propKey) "string"))
  /\ (forall subPropKey,
      (forall nested, svc !! propKey <> Some (Map nested)) ->
      getServiceProperty envs [serviceType; serviceName; propKey; subPropKey]
      = Panicked (InterfaceConversion (at_key svc propKey) "map[string]interface {}"))
  /\ (forall subPropKey nested,
      svc !! propKey = Some (Map nested) ->
      (forall value, nested !! subPropKey <> Some (Str value)) ->
      getServiceProperty envs [serviceType; serviceName; propKey; subPropKey]
      = Panicked (InterfaceConversion (at_key nested subPropKey) "string")).
Proof.
  intros Hbindings Hbefore Hname.
  assert (forall args, args !! 0 = Some serviceType -> args !! 1 = Some serviceName ->
            args !! 2 = Some propKey ->
            getServiceProperty envs args
            = bindingsLoop args serviceName propKey (Map svc :: after)) as Hloop.
  { intros args H0 H1 H2.
    rewrite (getServiceProperty_loop envs args serviceType serviceName propKey H0 H1 H2).
    by rewrite Hbindings, bindingsLoop_skip. }
  repeat split.
  - intros Hshape. rewrite Hloop by done. simpl. rewrite (at_key_Some _ _ _ Hname). simpl.
    rewrite decide_True by done. simpl.
    unfold at_key. destruct (svc !! propKey) as [[]|] eqn:Hprop; try done.
    by destruct (Hshape s).
  - intros subPropKey Hshape. rewrite Hloop by done. simpl. rewrite (at_key_Some _ _ _ Hname).
    simpl. rewrite decide_True by done. simpl.
    unfold at_key. destruct (svc !! propKey) as [[]|] eqn:Hprop; try done.
    by destruct (Hshape m).
  - intros subPropKey nested Hprop Hshape. rewrite Hloop by done. simpl.
    rewrite (at_key_Some _ _ _ Hname). simpl. rewrite decide_True by done. simpl.
    rewrite (at_key_Some _ _ _ Hprop). simpl.
    unfold at_key. destruct (nested !! subPropKey) as [[]|] eqn:Hsub; try done.
    by destruct (Hshape s).
Qed.

Lemma getServiceProperty_wrong_shape_witness :
  getServiceProperty catalogEnv ["db"; "mydb"; "port"]
  = Panicked (InterfaceConversion Nil "string")
  /\ getServiceProperty catalogEnv ["db"; "mydb"; "uri"; "user"]
     = Panicked (InterfaceConversion (Str "pg://one") "map[string]interface {}")
  /\ getServiceProperty catalogEnv ["db"; "mydb"; "creds"; "password"]
     = Panicked (InterfaceConversion Nil "string").
Proof.
  assert (Forall (namedOtherwise "mydb") [Map cacheBinding]) as Hbefore
    by (repeat constructor; apply cacheBinding_named; discriminate).
  split; [|split].
  - refine (eq_trans (proj1 (getServiceProperty_wrong_shape catalogEnv "db" "mydb" "port"
                               [Map cacheBinding] [Map secondBinding] firstBinding
                               catalog_db_bindings Hbefore eq_refl) _) _);
      [intros value; vm_compute; discriminate | reflexivity].
  - refine (eq_trans (proj1 (proj2 (getServiceProperty_wrong_shape catalogEnv "db" "mydb"
                                      "uri" [Map cacheBinding] [Map secondBinding]
                                      firstBinding catalog_db_bindings Hbefore eq_refl))
                        "user" _) _);
      [intros nested; vm_compute; discriminate | reflexivity].
  - refine (eq_trans (proj2 (proj2 (getServiceProperty_wrong_shape catalogEnv "db" "mydb"
                                      "creds" [Map cacheBinding] [Map secondBinding]
                                      firstBinding catalog_db_bindings Hbefore eq_refl))
                        "password" (<["user" := Str "bob"]> ∅) eq_refl _) _);
      [intros value; vm_compute; discriminate | reflexivity].
Defined.

(** ** More on [main] *)

Lemma append_cons (c : ascii) (s t : string) : String c s +:+ t = String c (s +:+ t).
Proof. reflexivity. Qed.

Lemma append_nil_r (s : string) : s +:+ "" = s.
Proof. induction s as [|c s IH]; [done|]. by rewrite append_cons, IH. Qed.

Lemma append_assoc (s t u : string) : (s +:+ t) +:+ u = s +:+ (t +:+ u).
Proof. induction s as [|c s IH]; [done|]. by rewrite !append_cons, IH. Qed.

Lemma WriteAll_spec (name content : string) (writes : list string) (w : World) :
  fs w !! name = Some (RegularFile content true) ->
  WriteAll name writes w
  = (tt, mkWorld (<[name := RegularFile (content +:+ written writes) true]> (fs w))
           (environ w) (trace w ++ map (EvWrite name) writes)).
Proof.
  revert content w. induction writes as [|data rest IH]; intros content w Hfile.
  - simpl. unfold written. simpl. rewrite append_nil_r, app_nil_r.
    rewrite insert_id by done. by destruct w.
  - simpl. unfold Write. run. rewrite Hfile. run.
    rewrite (IH (content +:+ data)) by (cbn [fs]; by rewrite lookup_insert_eq).
    cbn [fs environ trace]. rewrite insert_insert_eq, <- app_assoc.
    unfold written. simpl. by rewrite append_assoc.
Qed.

(** X19.  The tool fails before it has changed anything when it is given no
    file name (it panics on [os.Args[1]]), when the path cannot be read as a
    file (missing, a directory, forbidden), and when the file cannot be
    opened for writing: in each case the files are as they were, a
    read-only file keeps its content, and nothing is parsed or executed. *)
Theorem main_fails_before_writing (argv : list string) (w : World) :
  (argv !! 1 = None -> main argv w = (Panic (IndexOutOfRange 1 (List.length argv)), w))
  /\ (forall filename, argv !! 1 = Some filename ->
      (forall body writable, fs w !! filename <> Some (RegularFile body writable)) ->
      exists e, (main argv w).1 = Fatal "Could not read config file: %s: %s" e
                /\ fs (main argv w).2 = fs w
                /\ trace (main argv w).2 = (trace w ++ [EvReadFile filename])%list)
  /\ (forall filename body, argv !! 1 = Some filename ->
      fs w !! filename = Some (RegularFile body false) ->
      exists e, (main argv w).1 = Fatal "Could not open config file for writing: %s" e
                /\ fs (main argv w).2 = fs w
                /\ trace (main argv w).2
                   = (trace w ++ [EvReadFile filename; EvCreate filename])%list).
Proof.
  repeat split.
  - intros Hargv. unfold main. by rewrite Hargv.
  - intros filename Hargv Hnofile. unfold main. rewrite Hargv.
    unfold ReadFile. run.
    destruct (fs w !! filename) as [[body writable| |]|] eqn:Hnode; run; eauto.
    by destruct (Hnofile body writable).
  - intros filename body Hargv Hfile. unfold main. rewrite Hargv.
    unfold ReadFile, Create. run. rewrite Hfile. run. rewrite Hfile. run.
    eexists. split; [reflexivity|]. split; [reflexivity|]. by rewrite <- app_assoc.
Qed.

Lemma main_fails_before_writing_witness :
  main ["varify"] (toolWorld catalogEnv "listen {{port}};")
  = (Panic (IndexOutOfRange 1 1), toolWorld catalogEnv "listen {{port}};")
  /\ fs (main ["varify"; "/app/missing.conf"] (toolWorld catalogEnv "listen {{port}};")).2
     = fs (toolWorld catalogEnv "listen {{port}};")
  /\ fs (main toolArgs readOnlyWorld).2 = fs readOnlyWorld.
Proof.
  split; [|split].
  - apply (proj1 (main_fails_before_writing ["varify"]
                    (toolWorld catalogEnv "listen {{port}};"))).
    reflexivity.
  - destruct (proj1 (proj2 (main_fails_before_writing ["varify"; "/app/missing.conf"]
                              (toolWorld catalogEnv "listen {{port}};")))
                "/app/missing.conf" eq_refl) as (e & _ & Hfs & _); [|exact Hfs].
    intros body writable. vm_compute. discriminate.
  - destruct (proj2 (proj2 (main_fails_before_writing toolArgs readOnlyWorld))
                "/app/nginx.conf" "listen {{port}};" eq_refl ltac:(vm_compute; reflexivity))
      as (e & _ & Hfs & _).
    exact Hfs.
Defined.

(** [main] from the parse on, for a file that could be read and opened. *)
Lemma main_after_parse (argv : list string) (w : World)
    (filename body : string) (tree : list Node) (writes : list string) (ending : execEnd) :
  argv !! 1 = Some filename ->
  fs w !! filename = Some (RegularFile body true) ->
  template_Parse body = Parsed tree ->
  template_Execute (environ w) tree = (writes, ending) ->
  main argv w
  = (match ending with
     | ExecDone => Exit0
     | ExecError => Fatal "Could not write config file: %s" ExecFailure
     | ExecPanic p => Panic p
     | ExecUnsupported => OutsideFragment
     end,
     mkWorld (<[filename := RegularFile (written writes) true]> (fs w)) (environ w)
       (trace w ++ [EvReadFile filename; EvCreate filename]
        ++ map (EvWrite filename) writes)%list).
Proof.
  intros Hargv Hfile Hparse Hexec. unfold main. rewrite Hargv.
  unfold ReadFile, Create. run. rewrite Hfile. run. rewrite Hfile. run.
  rewrite Hparse. run. rewrite Hexec.
  rewrite (WriteAll_spec filename "" writes) by (cbn [fs]; by rewrite lookup_insert_eq).
  cbn [fs environ trace]. rewrite insert_insert_eq.
  change ("" +:+ written writes) with (written writes).
  destruct ending; cbn [fst snd fs environ trace]; by rewrite <- !app_assoc.
Qed.

(** X20.  Whenever the text parses, the file ends up holding exactly what the
    execution wrote, in order, whether the execution ran to its end or
    stopped at a directive that failed; and the tool exits normally only in
    the first case. *)
Theorem main_file_holds_the_writes (argv : list string) (w : World)
    (filename body : string) (tree : list Node) (writes : list string) (ending : execEnd) :
  argv !! 1 = Some filename ->
  fs w !! filename = Some (RegularFile body true) ->
  template_Parse body = Parsed tree ->
  template_Execute (environ w) tree = (writes, ending) ->
  fs (main argv w).2 = <[filename := RegularFile (written writes) true]> (fs w)
  /\ trace (main argv w).2
     = (trace w ++ [EvReadFile filename; EvCreate filename] ++ map (EvWrite filename) writes)%list
  /\ ((main argv w).1 = Exit0 <-> ending = ExecDone).
Proof.
  intros Hargv Hfile Hparse Hexec.
  rewrite (main_after_parse argv w filename body tree writes ending Hargv Hfile Hparse Hexec).
  cbn [fst snd fs trace]. split; [done|]. split; [done|].
  destruct ending; split; congruence.
Qed.

Lemma main_file_holds_the_writes_witness :
  fs (main toolArgs
        (toolWorld catalogEnv (dq "listen {{port}}; set $u {{svcprop 'db' 'mydb' 'creds'}};"))).2
  = <["/app/nginx.conf" := RegularFile "listen 8080; set $u " true]> ∅.
Proof.
  destruct (main_file_holds_the_writes toolArgs
              (toolWorld catalogEnv
                 (dq "listen {{port}}; set $u {{svcprop 'db' 'mydb' 'creds'}};"))
              "/app/nginx.conf"
              (dq "listen {{port}}; set $u {{svcprop 'db' 'mydb' 'creds'}};")
              [TextNode "listen "; ActionNode "port" []; TextNode "; set $u ";
               ActionNode "svcprop" ["db"; "mydb"; "creds"]; TextNode ";"]
              ["listen "; "8080"; "; set $u "]
              (ExecPanic (InterfaceConversion (Map (<["user" := Str "bob"]> ∅)) "string"))
              eq_refl ltac:(vm_compute; reflexivity) ltac:(vm_compute; reflexivity)
              ltac:(vm_compute; reflexivity)) as (Hfs & _ & _).
  rewrite Hfs. vm_compute. reflexivity.
Defined.

(** ** The reader on text without actions, and on actions never closed *)

Lemma contains_cons (needle : string) (c : ascii) (rest : string) :
  contains needle (String c rest)
  = String.prefix needle (String c rest) || contains needle rest.
Proof. reflexivity. Qed.

Lemma byte_is_eq (c : ascii) (n : N) : byte_is c n = true -> c = ascii_of_N n.
Proof.
  unfold byte_is, code. intros Heq%N.eqb_eq. by rewrite <- Heq, ascii_N_embedding.
Qed.

Lemma prefix_cons (a b : ascii) (s t : string) :
  String.prefix (String a s) (String b t)
  = if ascii_dec a b then String.prefix s t else false.
Proof. reflexivity. Qed.

Lemma prefix_nil (s : string) : String.prefix "" s = true.
Proof. by destruct s. Qed.

Lemma brace_prefix (c : ascii) (rest tail : string) :
  String.prefix (String "{" tail) (String c rest)
  = byte_is c 123 && String.prefix tail rest.
Proof.
  rewrite prefix_cons. destruct (ascii_dec "{" c) as [<-|Hne]; [done|].
  destruct (byte_is c 123) eqn:Hc; [|done]. apply byte_is_eq in Hc. by destruct Hne.
Qed.

Lemma snoc_append (s : string) (c : ascii) (t : string) :
  snoc s c +:+ t = s +:+ String c t.
Proof. unfold snoc. by rewrite append_assoc. Qed.

Lemma parseFrom_text (s t : string) (nodes : list Node) :
  contains "{{" s = false ->
  parseFrom (PText t) nodes s = Parsed (rev nodes ++ textNode (t +:+ s))
  /\ (String.prefix "{" s = false ->
      parseFrom (PTextBrace t) nodes s = Parsed (rev nodes ++ textNode (t +:+ String "{" s))).
Proof.
  revert t. induction s as [|c rest IH]; intros t Hfree.
  - simpl. rewrite append_nil_r. split; [done|]. intros _. unfold snoc. done.
  - rewrite contains_cons, brace_prefix in Hfree.
    apply orb_false_elim in Hfree as [Hhere Hrest].
    split.
    + simpl. destruct (byte_is c 123) eqn:Hc.
      * rewrite (byte_is_eq _ _ Hc). simpl in Hhere.
        by apply (proj2 (IH t Hrest)).
      * rewrite (proj1 (IH (snoc t c) Hrest)). by rewrite snoc_append.
    + intros Hnobrace. rewrite brace_prefix, prefix_nil, andb_true_r in Hnobrace.
      simpl. rewrite Hnobrace.
      rewrite (proj1 (IH _ Hrest)). by rewrite !snoc_append.
Qed.

Lemma parseFrom_unclosed (s t : string) (nodes : list Node) :
  contains "}}" s = false ->
  (contains "{{" s = true -> parseFrom (PText t) nodes s = ParseError)
  /\ (String.prefix "{" s = true \/ contains "{{" s = true ->
      parseFrom (PTextBrace t) nodes s = ParseError).
Proof.
  revert t. induction s as [|c rest IH]; intros t Hopen.
  - split; [discriminate|]. intros [?|?]; discriminate.
  - rewrite contains_cons in Hopen. apply orb_false_elim in Hopen as [_ Hrest].
    split.
    + rewrite contains_cons, brace_prefix. intros Hhere. simpl.
      destruct (byte_is c 123) eqn:Hc.
      * apply (proj2 (IH t Hrest)). simpl in Hhere.
        apply orb_true_iff in Hhere. tauto.
      * simpl in Hhere. by apply (proj1 (IH _ Hrest)).
    + rewrite contains_cons, !brace_prefix, prefix_nil, andb_true_r.
      intros Hhere. simpl. destruct (byte_is c 123) eqn:Hc.
      * by rewrite Hrest.
      * destruct Hhere as [?|Hhere]; [discriminate|]. simpl in Hhere.
        by apply (proj1 (IH _ Hrest)).
Qed.

(** X21.  A file that holds no action and no [<] is written back as it was:
    the tool exits normally and the files are what they were before. *)
Theorem main_keeps_plain_text (argv : list string) (w : World) (filename body : string) :
  argv !! 1 = Some filename ->
  fs w !! filename = Some (RegularFile body true) ->
  contains "{{" body = false ->
  contains "<" body = false ->
  (main argv w).1 = Exit0 /\ fs (main argv w).2 = fs w.
Proof.
  intros Hargv Hfile Hnoaction Hnomarkup.
  assert (template_Parse body = Parsed (textNode body)) as Hparse
    by apply (proj1 (parseFrom_text body "" [] Hnoaction)).
  assert (template_Execute (environ w) (textNode body)
          = (if decide (body = "") then [] else [body], ExecDone)) as Hexec.
  { unfold textNode, template_Execute. destruct (decide (body = "")); [done|].
    simpl. by rewrite Hnomarkup. }
  rewrite (main_after_parse argv w filename body _ _ _ Hargv Hfile Hparse Hexec).
  cbn [fst snd fs]. split; [done|]. apply insert_id. rewrite Hfile. do 2 f_equal.
  destruct (decide (body = "")) as [->|_]; [done|]. unfold written. simpl.
  by rewrite append_nil_r.
Qed.

Lemma main_keeps_plain_text_witness :
  (main toolArgs (toolWorld catalogEnv "events {} http { server { listen 80; } }")).1 = Exit0
  /\ fs (main toolArgs (toolWorld catalogEnv "events {} http { server { listen 80; } }")).2
     = fs (toolWorld catalogEnv "events {} http { server { listen 80; } }").
Proof.
  apply (main_keeps_plain_text toolArgs
           (toolWorld catalogEnv "events {} http { server { listen 80; } }")
           "/app/nginx.conf" "events {} http { server { listen 80; } }");
    reflexivity.
Defined.

(** X22.  A text in which an action is opened and the closing delimiter
    occurs nowhere is rejected by the reader, whatever else it holds. *)
Theorem unclosed_action_is_rejected (body : string) :
  contains "{{" body = true ->
  contains "}}" body = false ->
  template_Parse body = ParseError.
Proof.
  intros Hopen Hnoclose. by apply (proj1 (parseFrom_unclosed body "" [] Hnoclose)).
Qed.

Lemma unclosed_action_is_rejected_witness :
  template_Parse (dq "server { listen {{ env 'PORT' ; }") = ParseError.
Proof. apply unclosed_action_is_rejected; reflexivity. Defined.

(** ** What is rendered as it stands *)

Lemma length_append (s t : string) :
  String.length (s +:+ t) = String.length s + String.length t.
Proof. induction s as [|c s IH]; [done|]. rewrite append_cons. simpl. by rewrite IH. Qed.

Lemma htmlReplacement_length (c : ascii) :
  if htmlSpecial c then 1 < String.length (htmlReplacement c)
  else htmlReplacement c = String c "".
Proof.
  unfold htmlSpecial, htmlReplacement.
  destruct (byte_is c 0); [vm_compute; lia|].
  destruct (byte_is c 34); [vm_compute; lia|].
  destruct (byte_is c 38); [vm_compute; lia|].
  destruct (byte_is c 39); [vm_compute; lia|].
  destruct (byte_is c 43); [vm_compute; lia|].
  destruct (byte_is c 60); [vm_compute; lia|].
  destruct (byte_is c 62); [vm_compute; lia|]. done.
Qed.

Lemma htmlEscaper_length (s : string) :
  String.length s <= String.length (htmlEscaper s)
  /\ (plain s = false -> String.length s < String.length (htmlEscaper s)).
Proof.
  induction s as [|c rest [IHle IHlt]]; simpl; [split; [lia|discriminate]|].
  rewrite length_append. pose proof (htmlReplacement_length c) as Hc.
  destruct (htmlSpecial c); simpl.
  - split; [lia|]. intros _. lia.
  - rewrite Hc. simpl. split; [lia|]. intros Hrest. specialize (IHlt Hrest). lia.
Qed.

(** X23.  What a directive yields is written unchanged exactly when it holds
    none of the seven bytes the escaper replaces; a value that holds one of
    them is written longer than it is. *)
Theorem rendered_verbatim_iff_plain (envs : list string) (name : string) :
  (execNodes envs [ActionNode "env" [name]] = ([Getenv envs name], ExecDone)
   <-> plain (Getenv envs name) = true)
  /\ (forall v, htmlEscaper v = v <-> plain v = true).
Proof.
  assert (forall v, htmlEscaper v = v <-> plain v = true) as Hiff.
  { intros v. split; [|apply htmlEscaper_plain].
    intros Hsame. destruct (plain v) eqn:Hplain; [done|].
    pose proof (proj2 (htmlEscaper_length v) Hplain) as Hlen. rewrite Hsame in Hlen. lia. }
  split; [|exact Hiff]. rewrite <- Hiff. simpl. unfold callDirective. simpl.
  split; [by intros [= ->]|by intros ->].
Qed.
